(** * cifar.py: the train/evaluate loop and the long-tail weight rescaling

    A shallow embedding of [src/cifar.py] (the part of [main] from the
    [# Resume] block on, with [train], [test], [save_checkpoint] and
    [adjust_learning_rate]) and the properties of it that the specification
    states.

    Conventions of the embedding.
    - The script is read as Python 3: [/] is true division and [//] floor
      division, as the source's own use of both shows (lines 299-300
      and 328).
    - A Python [float] is a real number ([R]) and a Python [int] is a [Z].
      Rounding is outside the model.  The range of the formats is part of
      it where a value can leave it: the power [**] overflows and
      underflows as binary64 does, and the conversion of
      [torch.FloatTensor] (line 244) and the division of float32 tensors
      overflow and underflow as float32 does.
    - An entry of a torch tensor is a [tval]: a real number or one of the
      IEEE special values.
    - Exceptions are values of [exn]; a computation that can raise returns a
      [result]. *)

From Stdlib Require Import Reals Lra Lia ZArith List Ascii String Bool.
Import ListNotations.

Local Open Scope R_scope.

(** ** Exceptions and results *)

Inductive exn : Type :=
| ZeroDivisionError
| TypeError
| ValueError
| AssertionError
| RuntimeError
| OverflowError.

Inductive result (A : Type) : Type :=
| Ok (a : A)
| Raise (e : exn).

Arguments Ok {A} a.
Arguments Raise {A} e.

Definition rbind {A B : Type} (r : result A) (k : A -> result B) : result B :=
  match r with
  | Ok a => k a
  | Raise e => Raise e
  end.

Declare Scope result_scope.
Delimit Scope result_scope with result.
Notation "x <- c ;; k" := (rbind c (fun x => k))
  (at level 61, c at next level, right associativity) : result_scope.

(** A list comprehension whose element expression can raise: the elements
    are evaluated left to right and the first exception ends it. *)
Fixpoint comprehension {A B : Type} (f : A -> result B) (l : list A)
  : result (list B) :=
  match l with
  | [] => Ok []
  | a :: l' =>
      (b <- f a ;;
       bs <- comprehension f l' ;;
       Ok (b :: bs))%result
  end.

(** ** Python arithmetic used by the script *)

Module Py.

(** [range(n)] and [range(a, b)]. *)
Definition range2 (a b : Z) : list Z :=
  map (fun k => (a + Z.of_nat k)%Z) (seq 0 (Z.to_nat (b - a))).

Definition range (n : Z) : list Z := range2 0 n.

(** [x / y] on numbers: true division, [ZeroDivisionError] on [y = 0]. *)
Definition true_div (x y : R) : result R :=
  if Req_dec_T y 0 then Raise ZeroDivisionError else Ok (x / y).

(** [a % b] and [a // b] on ints: Python rounds the quotient down, as
    [Z.div] and [Z.modulo] do; both raise on [b = 0]. *)
Definition int_mod (a b : Z) : result Z :=
  if (b =? 0)%Z then Raise ZeroDivisionError else Ok (a mod b)%Z.

Definition floor_div (a b : Z) : result Z :=
  if (b =? 0)%Z then Raise ZeroDivisionError else Ok (a / b)%Z.

(** The range of binary64.  A result whose magnitude reaches
    [float_overflow] (the greatest float plus half a unit in its last
    place) rounds to infinity; one whose magnitude is at most
    [float_underflow] (half the least positive float) rounds to zero. *)
Definition float_overflow : R := IZR (2 ^ 1024 - 2 ^ 970).
Definition float_underflow : R := / IZR (2 ^ 1075).

(** What [x ** y] returns when the power of the base [x] is [v] in the real
    numbers: [OverflowError] when [v] leaves binary64 at the top, [0.0] when
    it leaves it at the bottom.  A base that is a float has a magnitude
    above [float_underflow]; the model's quotients are not rounded and can
    lie below it, and of such a base the power is kept as it is. *)
Definition pow_result (x v : R) : result R :=
  if Rle_dec float_overflow (Rabs v) then Raise OverflowError
  else if Rle_dec (Rabs v) float_underflow then
    (if Rlt_dec float_underflow (Rabs x) then Ok 0 else Ok v)
  else Ok v.

(** [x ** y] on floats (CPython's [float_pow], finite arguments):
    anything to the power 0 is 1; 0 to a negative power raises; a negative
    base with a non-integral exponent gives a [complex], which every use in
    the script ([float()], [max] against floats, [torch.FloatTensor])
    rejects with [TypeError] before any effect takes place, so the model
    raises it here; otherwise the power, within the range of binary64. *)
Definition float_pow (x y : R) : result R :=
  if Req_dec_T y 0 then Ok 1
  else if Req_dec_T x 0 then
    (if Rlt_dec y 0 then Raise ZeroDivisionError else Ok 0)
  else if Rlt_dec x 0 then
    (if Req_dec_T (IZR (Int_part y)) y
     then pow_result x (powerRZ x (Int_part y))
     else Raise TypeError)
  else pow_result x (Rpower x y).

(** [max(a, b)]: the first argument, unless the second is strictly
    greater. *)
Definition max2 (a b : R) : R := if Rlt_dec a b then b else a.

(** [max(l)] on a list: [ValueError] on the empty list, else the first of
    the greatest elements. *)
Definition max_list (l : list R) : result R :=
  match l with
  | [] => Raise ValueError
  | x :: l' => Ok (fold_left max2 l' x)
  end.

(** [a > b] on numbers. *)
Definition gt (a b : R) : bool := if Rlt_dec b a then true else false.

End Py.

(** ** Tensors *)

(** An entry of a float tensor. *)
Inductive tval : Type :=
| Fin (x : R)
| PInf
| NInf
| NaN.

(** A 2-D tensor, as the list of its rows. *)
Definition tensor : Type := list (list tval).

Definition shape (W : tensor) : list nat := map (@List.length tval) W.

(** The range of float32, as [float_overflow] and [float_underflow] give
    that of binary64. *)
Definition f32_overflow : R := IZR (2 ^ 128 - 2 ^ 103).
Definition f32_underflow : R := / IZR (2 ^ 150).

(** The float32 entry that a Python float becomes. *)
Definition to_float32 (v : R) : tval :=
  if Rle_dec f32_overflow v then PInf
  else if Rle_dec v (- f32_overflow) then NInf
  else if Rle_dec (Rabs v) f32_underflow then Fin 0
  else Fin v.

(** [torch.FloatTensor(ns)] (line 244). *)
Definition FloatTensor (ns : list R) : list tval := map to_float32 ns.

(** The float32 quotient of the entry [x] when the quotient is [q] in the
    real numbers: an infinity when [q] leaves float32 at the top, zero when
    it leaves it at the bottom.  An entry is a float32 number; of a real
    outside float32's range (no entry of a tensor) the quotient is kept as
    it is. *)
Definition f32_quotient (x q : R) : tval :=
  if Rle_dec f32_overflow (Rabs q) then
    (if Rlt_dec (Rabs x) f32_overflow
     then (if Rlt_dec 0 q then PInf else NInf)
     else Fin q)
  else if Rle_dec (Rabs q) f32_underflow then
    (if Rlt_dec f32_underflow (Rabs x) then Fin 0 else Fin q)
  else Fin q.

(** IEEE division of an entry by an entry.  The reals have one zero: a zero
    divisor counts as [+0.0], which is what [0.0 ** p] and an underflow
    give. *)
Definition tdiv (w s : tval) : tval :=
  match w, s with
  | NaN, _ => NaN
  | _, NaN => NaN
  | Fin x, Fin y =>
      if Req_dec_T y 0 then
        (if Req_dec_T x 0 then NaN
         else if Rlt_dec 0 x then PInf else NInf)
      else f32_quotient x (x / y)
  | Fin _, PInf => Fin 0
  | Fin _, NInf => Fin 0
  | PInf, Fin y => if Rlt_dec y 0 then NInf else PInf
  | NInf, Fin y => if Rlt_dec y 0 then PInf else NInf
  | PInf, PInf => NaN
  | PInf, NInf => NaN
  | NInf, PInf => NaN
  | NInf, NInf => NaN
  end.

Definition div_row (row : list tval) (s : tval) : list tval :=
  map (fun w => tdiv w s) row.

Fixpoint div_rows (W : tensor) (ns : list tval) : tensor :=
  match W, ns with
  | row :: W', s :: ns' => div_row row s :: div_rows W' ns'
  | _, _ => []
  end.

(** [W / ns] for a 2-D [W] and the column tensor [ns] (shape [C x 1] after
    [unsqueeze(-1)]), with torch's broadcasting: the row counts must agree
    or one of them must be 1.  The quotient is a new tensor. *)
Definition tensor_div (W : tensor) (ns : list tval) : result tensor :=
  if Nat.eqb (List.length W) (List.length ns) then Ok (div_rows W ns)
  else
    match ns, W with
    | [s], _ => Ok (map (fun row => div_row row s) W)
    | _, [row] => Ok (map (div_row row) ns)
    | _, _ => Raise RuntimeError
    end.

(** ** The class-frequency profile and the rescaling (lines 237-245) *)

Local Open Scope result_scope.

(** Lines 237-240: [imb_factor], [img_max] and the list [num_sample]. *)
Definition num_sample (num_classes imbalance : Z) : result (list R) :=
  imb_factor <- Py.true_div 1 (IZR imbalance) ;;
  img_max <- Py.true_div 50000 (IZR num_classes) ;;
  comprehension
    (fun i =>
       e <- Py.true_div (IZR i) (IZR (num_classes - 1)) ;;
       p <- Py.float_pow imb_factor e ;;
       Ok (img_max * p))
    (Py.range num_classes).

(** Line 242: [ns = [float(n) / max(num_sample) for n in num_sample]]. *)
Definition normalized (counts : list R) : result (list R) :=
  comprehension
    (fun n => m <- Py.max_list counts ;; Py.true_div n m)
    counts.

(** Line 243: [ns = [n ** args.RS for n in ns]]. *)
Definition strengthened (RS : R) (ns : list R) : result (list R) :=
  comprehension (fun n => Py.float_pow n RS) ns.

(** Lines 242-245: the scale factors [s(i)] of a profile as Python floats
    (lines 242-243), and the rescaled weights [new_W = W / ns] with [ns]
    the float32 tensor of the factors (lines 244-245). *)
Definition scale_factors (counts : list R) (RS : R) : result (list R) :=
  ns <- normalized counts ;;
  strengthened RS ns.

Definition rescale (W : tensor) (counts : list R) (RS : R) : result tensor :=
  ns <- scale_factors counts RS ;;
  tensor_div W (FloatTensor ns).

(** ** The collaborators *)

(** The network, the loss, the data pipeline's element types, torch's
    optimizer step and [os.path] are library services that the script calls;
    here they are the operations of an interface. *)
Class Backend : Type := {
  Inputs : Type;
  Targets : Type;
  Logits : Type;
  (** the entries of [model.state_dict()] other than ['module.fc.weight'] *)
  Others : Type;
  (** the optimizer's per-parameter state (momentum buffers) *)
  OptState : Type;
  (** the entries of a parameter group other than ['lr'] *)
  Hyper : Type;
  (** [inputs.size(0)] *)
  size0 : Inputs -> Z;
  (** [model(inputs)]: the logits, from the model's state and its mode
      ([true] is training mode) *)
  forward : tensor -> Others -> bool -> Inputs -> Logits;
  (** [criterion(outputs, targets)], read as a number ([loss.data[0]]) *)
  criterion : Logits -> Targets -> R;
  (** [utils.accuracy(outputs, targets, topk=(1, 5))] *)
  accuracy : Logits -> Targets -> R * R;
  (** what one training iteration does to the model's state and to the
      optimizer's state: the buffers that the training-mode forward pass
      updates (line 312) and [zero_grad], [backward], [step]
      (lines 322-324) *)
  sgd_step : list (R * Hyper) -> OptState -> tensor -> Others ->
             Inputs -> Targets -> (tensor * Others) * OptState;
  (** [os.path.join] and [os.path.dirname] *)
  path_join : string -> string -> string;
  path_dirname : string -> string
}.

(** Modelled from the spec: [utils.AverageMeter] is not among the sources;
    the spec's MetricAccumulator keeps a running sum and count, [update]
    folds in one observation with its weight, and the average is sum/count,
    with 0 as the value of an empty meter. *)
Record AverageMeter : Type := {
  meter_sum : R;
  meter_count : Z
}.

Definition new_meter : AverageMeter := {| meter_sum := 0; meter_count := 0 |}.

Definition meter_update (m : AverageMeter) (val : R) (n : Z) : AverageMeter :=
  {| meter_sum := meter_sum m + val * IZR n;
     meter_count := (meter_count m + n)%Z |}.

Definition meter_avg (m : AverageMeter) : R :=
  if (meter_count m =? 0)%Z then 0 else meter_sum m / IZR (meter_count m).

(** ** The data model *)

Inductive Dataset : Type := cifar10 | cifar100.

(** Lines 146-149. *)
Definition num_classes (d : Dataset) : Z :=
  match d with
  | cifar10 => 10
  | cifar100 => 100
  end.

(** The command-line arguments that the modelled part reads. *)
Record Args : Type := {
  dataset : Dataset;
  imbalance : Z;
  epochs : Z;
  start_epoch : Z;
  lr : R;
  schedule : list Z;
  gamma : R;
  checkpoint : string;
  resume : string;
  RS : R;
  evaluate : bool
}.

Section Program.

Context {B : Backend}.

Record batch : Type := {
  inputs : Inputs;
  targets : Targets
}.

(** [model.state_dict()]: the classifier's weights, which line 235 reads as
    the entry ['module.fc.weight'], and the other entries. *)
Record StateDict : Type := {
  fc_weight : tensor;
  others : Others
}.

(** The model: its state and its mode flag [training]. *)
Record Model : Type := {
  state_dict : StateDict;
  training : bool
}.

Record ParamGroup : Type := {
  pg_lr : R;
  pg_hyper : Hyper
}.

(** The optimizer; [optimizer.state_dict()] is all of it. *)
Record Optimizer : Type := {
  param_groups : list ParamGroup;
  opt_state : OptState
}.

(** The dict that line 275 builds and [torch.save] writes. *)
Record Checkpoint : Type := {
  ck_epoch : Z;
  ck_state_dict : StateDict;
  ck_acc : R;
  ck_best_acc : R;
  ck_optimizer : Optimizer
}.

(** What the script prints and logs, and its calls of [save_checkpoint]. *)
Inductive event : Type :=
| Print (s : string)
| PrintResult (with_RS : bool) (test_loss test_acc : R)
| PrintProgress (epoch : Z) (percent loss : R)
| LogEpoch (epoch : Z) (total : Z) (lr train_loss test_loss train_acc test_acc : R)
| PrintBest (acc : R)
| SaveCheckpoint (state : Checkpoint) (is_best : bool) (dir : string).

(** The mutable state of a run: the globals [best_acc] and [state['lr']],
    [args.checkpoint] (which the resume block overwrites), the model, the
    optimizer and the files that [torch.save] writes. *)
Record World : Type := {
  best_acc : R;
  state_lr : R;
  args_checkpoint : string;
  model : Model;
  optimizer : Optimizer;
  files : string -> option Checkpoint
}.

(** The world at line 212: [best_acc = 0] (line 114), [state] copied from
    the arguments (line 96). *)
Definition initial_world (a : Args) (m : Model) (o : Optimizer)
    (fs : string -> option Checkpoint) : World :=
  {| best_acc := 0;
     state_lr := lr a;
     args_checkpoint := checkpoint a;
     model := m;
     optimizer := o;
     files := fs |}.

(** ** Computations: state, exceptions and output *)

Record outcome (A : Type) : Type := Outcome {
  res : result A;
  final : World;
  trace : list event
}.

Arguments Outcome {A} res final trace.
Arguments res {A} o.
Arguments final {A} o.
Arguments trace {A} o.

Definition M (A : Type) : Type := World -> outcome A.

Definition ret {A : Type} (a : A) : M A :=
  fun w => Outcome (Ok a) w [].

Definition bind {A C : Type} (c : M A) (k : A -> M C) : M C :=
  fun w =>
    match c w with
    | Outcome (Ok a) w1 t1 =>
        match k a w1 with
        | Outcome r w2 t2 => Outcome r w2 (t1 ++ t2)
        end
    | Outcome (Raise e) w1 t1 => Outcome (Raise e) w1 t1
    end.

Definition get : M World := fun w => Outcome (Ok w) w [].
Definition put (w : World) : M unit := fun _ => Outcome (Ok tt) w [].
Definition emit (e : event) : M unit := fun w => Outcome (Ok tt) w [e].
Definition lift {A : Type} (r : result A) : M A := fun w => Outcome r w [].

End Program.

Arguments Outcome {B A} res final trace.
Arguments res {B A} o.
Arguments final {B A} o.
Arguments trace {B A} o.

Declare Scope prog_scope.
Delimit Scope prog_scope with prog.
Notation "x <- c ;; k" := (bind c (fun x => k))
  (at level 61, c at next level, right associativity) : prog_scope.
Notation "c ;; k" := (bind c (fun _ => k))
  (at level 61, right associativity) : prog_scope.

Section Script.

Context {B : Backend}.

Local Open Scope prog_scope.

(** *** Assignments to the parts of the world *)

Definition with_best_acc (x : R) (w : World) : World :=
  {| best_acc := x; state_lr := state_lr w;
     args_checkpoint := args_checkpoint w; model := model w;
     optimizer := optimizer w; files := files w |}.

Definition with_state_lr (x : R) (w : World) : World :=
  {| best_acc := best_acc w; state_lr := x;
     args_checkpoint := args_checkpoint w; model := model w;
     optimizer := optimizer w; files := files w |}.

Definition with_args_checkpoint (d : string) (w : World) : World :=
  {| best_acc := best_acc w; state_lr := state_lr w;
     args_checkpoint := d; model := model w;
     optimizer := optimizer w; files := files w |}.

Definition with_model (m : Model) (w : World) : World :=
  {| best_acc := best_acc w; state_lr := state_lr w;
     args_checkpoint := args_checkpoint w; model := m;
     optimizer := optimizer w; files := files w |}.

Definition with_optimizer (o : Optimizer) (w : World) : World :=
  {| best_acc := best_acc w; state_lr := state_lr w;
     args_checkpoint := args_checkpoint w; model := model w;
     optimizer := o; files := files w |}.

Definition with_files (fs : string -> option Checkpoint) (w : World) : World :=
  {| best_acc := best_acc w; state_lr := state_lr w;
     args_checkpoint := args_checkpoint w; model := model w;
     optimizer := optimizer w; files := fs |}.

Definition modify (f : World -> World) : M unit :=
  fun w => Outcome (Ok tt) (f w) [].

Definition set_best_acc (x : R) : M unit := modify (with_best_acc x).
Definition set_state_lr (x : R) : M unit := modify (with_state_lr x).
Definition set_args_checkpoint (d : string) : M unit :=
  modify (with_args_checkpoint d).
Definition set_model (m : Model) : M unit := modify (with_model m).
Definition set_optimizer (o : Optimizer) : M unit := modify (with_optimizer o).
Definition set_files (fs : string -> option Checkpoint) : M unit :=
  modify (with_files fs).

(** *** Methods of the model and of the optimizer *)

(** [model.train()] and [model.eval()]: set the mode flag. *)
Definition model_set_mode (mode : bool) : M unit :=
  w <- get ;;
  set_model {| state_dict := state_dict (model w); training := mode |}.

(** [model.load_state_dict(sd)]: the state becomes [sd], the mode stays.
    (torch's own validation of keys and shapes is not modelled.) *)
Definition model_load_state_dict (sd : StateDict) : M unit :=
  w <- get ;;
  set_model {| state_dict := sd; training := training (model w) |}.

(** [optimizer.load_state_dict(o)]. *)
Definition optimizer_load_state_dict (o : Optimizer) : M unit :=
  set_optimizer o.

(** [model(inputs)] in the current state and mode. *)
Definition model_call (x : Inputs) : M Logits :=
  w <- get ;;
  ret (forward (fc_weight (state_dict (model w)))
               (others (state_dict (model w)))
               (training (model w)) x).

(** Lines 322-324 (with the buffer updates of the training-mode forward
    pass): the model's state and the optimizer's state move on; the mode
    and the parameter groups are not written. *)
Definition optimizer_step (b : batch) : M unit :=
  w <- get ;;
  let m := model w in
  let o := optimizer w in
  let '(fc', oth', os') :=
    sgd_step (map (fun g => (pg_lr g, pg_hyper g)) (param_groups o))
             (opt_state o)
             (fc_weight (state_dict m)) (others (state_dict m))
             (inputs b) (targets b) in
  set_model {| state_dict := {| fc_weight := fc'; others := oth' |};
               training := training m |} ;;
  set_optimizer {| param_groups := param_groups o; opt_state := os' |}.

(** *** [adjust_learning_rate] (lines 383-388) *)

Definition set_group_lr (x : R) (g : ParamGroup) : ParamGroup :=
  {| pg_lr := x; pg_hyper := pg_hyper g |}.

Definition adjust_learning_rate (a : Args) (epoch : Z) : M unit :=
  if existsb (Z.eqb epoch) (schedule a) then
    w <- get ;;
    set_state_lr (state_lr w * gamma a) ;;
    w <- get ;;
    set_optimizer
      {| param_groups := map (set_group_lr (state_lr w))
                             (param_groups (optimizer w));
         opt_state := opt_state (optimizer w) |}
  else ret tt.

(** *** The metric bookkeeping shared by [train] and [test] *)

(** The meters [losses], [top1], [top5]; the two timing meters hold
    wall-clock durations and are left out. *)
Record Meters : Type := {
  losses : AverageMeter;
  top1 : AverageMeter;
  top5 : AverageMeter
}.

Definition new_meters : Meters :=
  {| losses := new_meter; top1 := new_meter; top5 := new_meter |}.

(** Lines 316-319 and 366-369. *)
Definition record_batch (ms : Meters) (b : batch) (outputs : Logits) : Meters :=
  let loss := criterion outputs (targets b) in
  let '(prec1, prec5) := accuracy outputs (targets b) in
  {| losses := meter_update (losses ms) loss (size0 (inputs b));
     top1 := meter_update (top1 ms) prec1 (size0 (inputs b));
     top5 := meter_update (top5 ms) prec5 (size0 (inputs b)) |}.

(** *** [train] (lines 287-337) *)

Definition num_print : Z := 13.

(** One iteration of the loop of [train] (lines 302-332). *)
Definition train_batch (epoch denom : Z) (per : R) (ms : Meters)
    (batch_idx : Z) (b : batch) : M Meters :=
  outputs <- model_call (inputs b) ;;
  let loss := criterion outputs (targets b) in
  let ms' := record_batch ms b outputs in
  optimizer_step b ;;
  r <- lift (Py.int_mod (batch_idx + 1) denom) ;;
  (if (r =? 0)%Z then
     q <- lift (Py.floor_div batch_idx denom) ;;
     emit (PrintProgress epoch (per * IZR (q + 1)) loss)
   else ret tt) ;;
  ret ms'.

Fixpoint train_loop (epoch denom : Z) (per : R) (batch_idx : Z)
    (bs : list batch) (ms : Meters) : M Meters :=
  match bs with
  | [] => ret ms
  | b :: bs' =>
      ms' <- train_batch epoch denom per ms batch_idx b ;;
      train_loop epoch denom per (batch_idx + 1) bs' ms'
  end.

(** [trainloader] is the list of the batches that this pass over the loader
    yields; its [__len__] is their number. *)
Definition train (trainloader : list batch) (epoch : Z) : M (R * R) :=
  model_set_mode true ;;
  let max_iter := Z.of_nat (List.length trainloader) in
  let denom := (max_iter / num_print)%Z in
  let per := (1 / IZR num_print * 100)%R in
  ms <- train_loop epoch denom per 0 trainloader new_meters ;;
  ret (meter_avg (losses ms), meter_avg (top1 ms)).

(** *** [test] (lines 339-374) *)

Definition test_batch (ms : Meters) (b : batch) : M Meters :=
  outputs <- model_call (inputs b) ;;
  ret (record_batch ms b outputs).

Fixpoint test_loop (bs : list batch) (ms : Meters) : M Meters :=
  match bs with
  | [] => ret ms
  | b :: bs' =>
      ms' <- test_batch ms b ;;
      test_loop bs' ms'
  end.

Definition test (testloader : list batch) : M (R * R) :=
  model_set_mode false ;;
  ms <- test_loop testloader new_meters ;;
  ret (meter_avg (losses ms), meter_avg (top1 ms)).

(** *** [save_checkpoint] (lines 376-382) *)

Definition write_file (path : string) (c : option Checkpoint)
    (fs : string -> option Checkpoint) : string -> option Checkpoint :=
  fun p => if String.eqb p path then c else fs p.

Definition checkpoint_name : string := "checkpoint.pth.tar".
Definition best_name : string := "model_best.pth.tar".

Definition save_checkpoint (state : Checkpoint) (is_best : bool)
    (dir : string) : M unit :=
  emit (SaveCheckpoint state is_best dir) ;;
  let filepath := path_join dir checkpoint_name in
  w <- get ;;
  set_files (write_file filepath (Some state) (files w)) ;;
  if is_best then
    let dst := path_join dir best_name in
    w <- get ;;
    set_files (write_file dst (files w filepath) (files w))
  else ret tt.

(** *** [main], from the resume block on (lines 212-285) *)

(** Lines 272-281: the checkpoint decision of one epoch. *)
Definition checkpointing (epoch : Z) (test_acc : R) : M unit :=
  w <- get ;;
  let is_best := Py.gt test_acc (best_acc w) in
  set_best_acc (Py.max2 test_acc (best_acc w)) ;;
  w <- get ;;
  save_checkpoint
    {| ck_epoch := epoch + 1;
       ck_state_dict := state_dict (model w);
       ck_acc := test_acc;
       ck_best_acc := best_acc w;
       ck_optimizer := optimizer w |}
    is_best (args_checkpoint w).

(** Lines 258-281: the body of the epoch loop.  [trainloader epoch] is the
    pass over the shuffled training loader that this epoch makes. *)
Definition epoch_body (a : Args) (trainloader : Z -> list batch)
    (testloader : list batch) (epoch : Z) : M unit :=
  adjust_learning_rate a epoch ;;
  tr <- train (trainloader epoch) epoch ;;
  tt' <- test testloader ;;
  w <- get ;;
  emit (LogEpoch (epoch + 1) (epochs a) (state_lr w)
                 (fst tr) (fst tt') (snd tr / 100) (snd tt' / 100)) ;;
  checkpointing epoch (snd tt').

Fixpoint epoch_loop (a : Args) (trainloader : Z -> list batch)
    (testloader : list batch) (es : list Z) : M unit :=
  match es with
  | [] => ret tt
  | epoch :: es' =>
      epoch_body a trainloader testloader epoch ;;
      epoch_loop a trainloader testloader es'
  end.

(** Lines 214-225; the value is [start_epoch].  The files of the model are
    the checkpoints that [torch.save] wrote, so [os.path.isfile] and
    [torch.load] are one lookup. *)
Definition resume_block (a : Args) : M Z :=
  if String.eqb (resume a) "" then ret (start_epoch a)
  else
    emit (Print "==> Resuming from checkpoint..") ;;
    emit (Print (resume a)) ;;
    w <- get ;;
    match files w (resume a) with
    | None => lift (Raise AssertionError)
    | Some ck =>
        set_args_checkpoint (path_dirname (resume a)) ;;
        set_best_acc (ck_best_acc ck) ;;
        model_load_state_dict (ck_state_dict ck) ;;
        optimizer_load_state_dict (ck_optimizer ck) ;;
        ret (ck_epoch ck)
    end.

(** Lines 234-245: read the classifier's weights and compute [new_W]. *)
Definition compute_new_W (a : Args) : M tensor :=
  w <- get ;;
  let W := fc_weight (state_dict (model w)) in
  counts <- lift (num_sample (num_classes (dataset a)) (imbalance a)) ;;
  lift (rescale W counts (RS a)).

(** Line 229 prints a line feed and ['Evaluation only']. *)
Definition evaluation_banner : string :=
  String "010"%char "Evaluation only".

(** Lines 228-254: evaluation only. *)
Definition evaluate_block (a : Args) (testloader : list batch) : M unit :=
  emit (Print evaluation_banner) ;;
  t <- test testloader ;;
  emit (PrintResult false (fst t) (snd t)) ;;
  new_W <- compute_new_W a ;;
  w <- get ;;
  model_load_state_dict
    {| fc_weight := new_W; others := others (state_dict (model w)) |} ;;
  t <- test testloader ;;
  emit (PrintResult true (fst t) (snd t)).

(** Lines 228-285: what [main] does once [start_epoch] is known. *)
Definition run_from (a : Args) (trainloader : Z -> list batch)
    (testloader : list batch) (start : Z) : M unit :=
  if evaluate a then evaluate_block a testloader
  else
    epoch_loop a trainloader testloader (Py.range2 start (epochs a)) ;;
    emit (Print "Best acc:") ;;
    w <- get ;;
    emit (PrintBest (best_acc w)).

Definition main (a : Args) (trainloader : Z -> list batch)
    (testloader : list batch) : M unit :=
  start <- resume_block a ;;
  run_from a trainloader testloader start.

End Script.

(** ** Notions used in the statements *)

Section Notions.

Context {B : Backend}.

(** The calls of [save_checkpoint] in a trace: the record and the flag. *)
Definition saves (tr : list event) : list (Checkpoint * bool) :=
  flat_map
    (fun e =>
       match e with
       | SaveCheckpoint c b _ => [(c, b)]
       | _ => []
       end)
    tr.

(** The meters after the batches [bs], for a model that does not change:
    each batch is run through the model and recorded. *)
Definition meters_over (m : Model) (bs : list batch) (ms : Meters) : Meters :=
  fold_left
    (fun ms b =>
       record_batch ms b
         (forward (fc_weight (state_dict m)) (others (state_dict m))
                  (training m) (inputs b)))
    bs ms.

Definition eval_mode (m : Model) : Model :=
  {| state_dict := state_dict m; training := false |}.

Definition train_mode (m : Model) : Model :=
  {| state_dict := state_dict m; training := true |}.

(** The parts of the world that neither [train] nor [test] writes. *)
Definition same_bookkeeping (w w' : World) : Prop :=
  best_acc w' = best_acc w /\
  state_lr w' = state_lr w /\
  args_checkpoint w' = args_checkpoint w /\
  files w' = files w /\
  param_groups (optimizer w') = param_groups (optimizer w).

(** The progress lines of [train] (line 327). *)
Definition progress_event (e : event) : Prop :=
  match e with
  | PrintProgress _ _ _ => True
  | _ => False
  end.

(** The results that evaluation-only mode prints: the flag says whether the
    line is the one after the rescaling. *)
Definition results (tr : list event) : list (bool * R * R) :=
  flat_map
    (fun e =>
       match e with
       | PrintResult b l acc => [(b, l, acc)]
       | _ => []
       end)
    tr.

(** The best accuracies that [main] prints at its end. *)
Definition reported_best (tr : list event) : list R :=
  flat_map
    (fun e =>
       match e with
       | PrintBest x => [x]
       | _ => []
       end)
    tr.

(** The learning rates that the epochs log, with the epoch (the log line
    shows [epoch + 1]). *)
Definition logged_lr (tr : list event) : list (Z * R) :=
  flat_map
    (fun e =>
       match e with
       | LogEpoch e1 _ x _ _ _ _ => [((e1 - 1)%Z, x)]
       | _ => []
       end)
    tr.

End Notions.

(** Lines 273-274 along a sequence of test accuracies: for each epoch the
    flag [is_best] and the best accuracy after it. *)
Fixpoint best_tracking (best : R) (accs : list R) : list (bool * R) :=
  match accs with
  | [] => []
  | acc :: accs' =>
      (Py.gt acc best, Py.max2 acc best)
        :: best_tracking (Py.max2 acc best) accs'
  end.

Definition final_best (best : R) (accs : list R) : R :=
  fold_left (fun b acc => Py.max2 acc b) accs best.

(** The rate that the spec states for epoch [e], for the schedule
    [[80; 150]], [gamma = 0.1] and the initial rate 0.1. *)
Definition rate_during (e : Z) : R :=
  if (e <? 80)%Z then 0.1 else if (e <? 150)%Z then 0.01 else 0.001.

(** The spec's formula for the count of class [i]:
    [max_count * r^(-i/(C-1))] with [max_count = 50000 / C]. *)
Definition exponential_count (C r i : Z) : R :=
  50000 / IZR C * Rpower (IZR r) (- (IZR i / IZR (C - 1))).

(** The closed forms of [n(i)] and of [s(i)] on that profile. *)
Definition spec_norm (C r : Z) (i : Z) : R :=
  Rpower (IZR r) (- (IZR i / IZR (C - 1))).

Definition spec_scale (C r : Z) (p : R) (i : Z) : R :=
  Rpower (IZR r) (- (IZR i / IZR (C - 1)) * p).


(** Every entry is a number. *)
Definition finite_tensor (W : tensor) : Prop :=
  forall row w, In row W -> In w row -> exists x, w = Fin x.

(** ** A small instance, for examples *)

(** A backend with one-point data: the network's output and the loss are
    constant and a training step changes nothing. *)
Definition unit_backend : Backend :=
  {| Inputs := unit;
     Targets := unit;
     Logits := unit;
     Others := unit;
     OptState := unit;
     Hyper := unit;
     size0 := fun _ => 1%Z;
     forward := fun _ _ _ _ => tt;
     criterion := fun _ _ => 0;
     accuracy := fun _ _ => (0, 0);
     sgd_step := fun _ os fc oth _ _ => ((fc, oth), os);
     path_join := fun d f => (d ++ "/" ++ f)%string;
     path_dirname := fun p => p |}.

Definition unit_batch : @batch unit_backend :=
  @Build_batch unit_backend tt tt.

Definition example_args : Args :=
  {| dataset := cifar10;
     imbalance := 100;
     epochs := 180;
     start_epoch := 0;
     lr := 0.1;
     schedule := [80; 150]%Z;
     gamma := 0.1;
     checkpoint := "checkpoints";
     resume := "";
     RS := 1;
     evaluate := false |}.

Definition example_model : @Model unit_backend :=
  @Build_Model unit_backend
    (@Build_StateDict unit_backend (repeat [Fin 1] 10) tt) true.

Definition example_optimizer : @Optimizer unit_backend :=
  @Build_Optimizer unit_backend
    [@Build_ParamGroup unit_backend 0.1 tt] tt.

Definition example_world : @World unit_backend :=
  initial_world example_args example_model example_optimizer (fun _ => None).

(** The arguments of a run that resumes from the checkpoint of the example
    world, and those of an evaluation-only run. *)
Definition resume_args : Args :=
  {| dataset := cifar10;
     imbalance := 100;
     epochs := 180;
     start_epoch := 0;
     lr := 0.1;
     schedule := [80; 150]%Z;
     gamma := 0.1;
     checkpoint := "checkpoints";
     resume := "checkpoints/checkpoint.pth.tar";
     RS := 1;
     evaluate := false |}.

Definition evaluate_args : Args :=
  {| dataset := cifar10;
     imbalance := 100;
     epochs := 180;
     start_epoch := 0;
     lr := 0.1;
     schedule := [80; 150]%Z;
     gamma := 0.1;
     checkpoint := "checkpoints";
     resume := "";
     RS := 1;
     evaluate := true |}.


(** ** Further notions *)

Section MoreNotions.

Context {B : Backend}.

(** The percentages that the progress lines of a trace show. *)
Definition progress_percents (tr : list event) : list R :=
  flat_map
    (fun e =>
       match e with
       | PrintProgress _ p _ => [p]
       | _ => []
       end)
    tr.

(** The two files of a checkpoint directory (lines 378 and 381). *)
Definition latest_path (dir : string) : string :=
  path_join dir checkpoint_name.

Definition best_path (dir : string) : string :=
  path_join dir best_name.

End MoreNotions.

(** The epochs of [es] at which the schedule fires (line 385). *)
Definition scheduled (a : Args) (es : list Z) : list Z :=
  filter (fun e => existsb (Z.eqb e) (schedule a)) es.

Section CheckpointNotions.

Context {B : Backend}.

(** The best file holds a record of the epoch that reached the current best
    accuracy. *)
Definition best_file_current (w : World) : Prop :=
  exists c,
    files w (best_path (args_checkpoint w)) = Some c /\
    ck_acc c = best_acc w /\
    ck_best_acc c = best_acc w.

(** Every parameter group of the optimizer carries the rate
    [state['lr']]. *)
Definition groups_follow (w : World) : Prop :=
  Forall (fun g => pg_lr g = state_lr w) (param_groups (optimizer w)).

End CheckpointNotions.

(** ** Further examples *)

(** A record with accuracy 0, and the example world with that record as its
    best file. *)
Definition example_checkpoint : @Checkpoint unit_backend :=
  @Build_Checkpoint unit_backend 1
    (@Build_StateDict unit_backend (repeat [Fin 1] 10) tt) 0 0
    example_optimizer.

Definition example_world_with_best : @World unit_backend :=
  with_files
    (fun p =>
       if String.eqb p "checkpoints/model_best.pth.tar"
       then Some example_checkpoint else None)
    example_world.

(** The arguments of a run that resumes from a file that does not exist. *)
Definition missing_resume_args : Args :=
  {| dataset := cifar10;
     imbalance := 100;
     epochs := 180;
     start_epoch := 0;
     lr := 0.1;
     schedule := [80; 150]%Z;
     gamma := 0.1;
     checkpoint := "checkpoints";
     resume := "checkpoints/missing.pth.tar";
     RS := 1;
     evaluate := false |}.

(** The arguments of evaluation-only runs with imbalance 0 and with the
    default imbalance 1. *)
Definition zero_imbalance_args : Args :=
  {| dataset := cifar10;
     imbalance := 0;
     epochs := 180;
     start_epoch := 0;
     lr := 0.1;
     schedule := [80; 150]%Z;
     gamma := 0.1;
     checkpoint := "checkpoints";
     resume := "";
     RS := 0.1;
     evaluate := true |}.



(** The arguments of a training run of two epochs. *)
Definition short_run_args : Args :=
  {| dataset := cifar10;
     imbalance := 100;
     epochs := 2;
     start_epoch := 0;
     lr := 0.1;
     schedule := [80; 150]%Z;
     gamma := 0.1;
     checkpoint := "checkpoints";
     resume := "";
     RS := 1;
     evaluate := false |}.

(** The arguments of a training run whose start epoch is past its last
    epoch. *)
Definition finished_args : Args :=
  {| dataset := cifar10;
     imbalance := 100;
     epochs := 2;
     start_epoch := 5;
     lr := 0.1;
     schedule := [80; 150]%Z;
     gamma := 0.1;
     checkpoint := "checkpoints";
     resume := "";
     RS := 1;
     evaluate := false |}.

(** * Properties *)

(** ** Python arithmetic *)

Lemma true_div_ok (x y : R) : y <> 0 -> Py.true_div x y = Ok (x / y).
Proof.
  intros Hy. unfold Py.true_div.
  destruct (Req_dec_T y 0) as [E | _]; [contradiction | reflexivity].
Qed.

Lemma div_le_1 (a b : R) : 0 < b -> a <= b -> a / b <= 1.
Proof.
  intros Hb Hab. unfold Rdiv. apply (Rmult_le_reg_r b); [assumption |].
  rewrite Rmult_assoc, Rinv_l by lra. lra.
Qed.

(** ** The ranges of the float formats *)

Lemma float_range : 0 < Py.float_underflow < 1 /\ 1 < Py.float_overflow.
Proof.
  unfold Py.float_underflow, Py.float_overflow. repeat split.
  - apply Rinv_0_lt_compat. apply IZR_lt. reflexivity.
  - rewrite <- Rinv_1. apply Rinv_lt_contravar.
    + rewrite Rmult_1_l. apply IZR_lt. reflexivity.
    + apply IZR_lt. reflexivity.
  - apply IZR_lt. reflexivity.
Qed.

Lemma f32_range : 0 < f32_underflow < 1 /\ 1 < f32_overflow.
Proof.
  unfold f32_underflow, f32_overflow. repeat split.
  - apply Rinv_0_lt_compat. apply IZR_lt. reflexivity.
  - rewrite <- Rinv_1. apply Rinv_lt_contravar.
    + rewrite Rmult_1_l. apply IZR_lt. reflexivity.
    + apply IZR_lt. reflexivity.
  - apply IZR_lt. reflexivity.
Qed.

(** The range of float32 lies within that of binary64. *)
Lemma f32_within_float :
  Py.float_underflow < f32_underflow /\ f32_overflow < Py.float_overflow.
Proof.
  unfold Py.float_underflow, Py.float_overflow, f32_underflow, f32_overflow.
  split.
  - apply Rinv_lt_contravar.
    + rewrite <- mult_IZR. apply IZR_lt. reflexivity.
    + apply IZR_lt. reflexivity.
  - apply IZR_lt. reflexivity.
Qed.

(** ** The power *)

Lemma pow_result_exact (x v : R) :
  Rabs v < Py.float_overflow -> Py.float_underflow < Rabs v ->
  Py.pow_result x v = Ok v.
Proof.
  intros Ho Hu. unfold Py.pow_result.
  destruct (Rle_dec Py.float_overflow (Rabs v)); [lra |].
  destruct (Rle_dec (Rabs v) Py.float_underflow); [lra | reflexivity].
Qed.


Lemma pow_result_overflow (x v : R) :
  Py.float_overflow <= Rabs v -> Py.pow_result x v = Raise OverflowError.
Proof.
  intros Ho. unfold Py.pow_result.
  destruct (Rle_dec Py.float_overflow (Rabs v)); [reflexivity | lra].
Qed.

Lemma Rpower_pos (x y : R) : 0 < Rpower x y.
Proof. unfold Rpower. apply exp_pos. Qed.

Lemma Rabs_Rpower (x y : R) : Rabs (Rpower x y) = Rpower x y.
Proof. apply Rabs_pos_eq. left. apply Rpower_pos. Qed.

(** On a positive base the power is the real power, within the range. *)
Lemma float_pow_pos_base (x y : R) :
  0 < x -> Py.float_pow x y = Py.pow_result x (Rpower x y).
Proof.
  intros Hx. pose proof float_range as [[U0 U1] O1]. unfold Py.float_pow.
  destruct (Req_dec_T y 0) as [-> | Hy].
  - rewrite Rpower_O by assumption. symmetry.
    apply pow_result_exact; rewrite Rabs_R1; lra.
  - destruct (Req_dec_T x 0) as [E | _]; [lra |].
    destruct (Rlt_dec x 0) as [L | _]; [lra | reflexivity].
Qed.


(** A power of a base in (0, 1] with an exponent in [0, 1] lies between
    the base and 1, and so within the range whatever the base is. *)
Lemma Rpower_unit (x y : R) :
  0 < x <= 1 -> 0 <= y <= 1 -> x <= Rpower x y <= 1.
Proof.
  intros [Hx0 Hx1] [Hy0 Hy1].
  assert (Hln : ln x <= 0).
  { rewrite <- ln_1. destruct Hx1 as [Hx1 | ->]; [| lra].
    left. now apply ln_increasing. }
  split.
  - rewrite <- (exp_ln x) at 1 by assumption. unfold Rpower.
    destruct (Req_dec_T (ln x) (y * ln x)) as [<- | N]; [lra |].
    left. apply exp_increasing. nra.
  - unfold Rpower. rewrite <- exp_0.
    destruct (Req_dec_T (y * ln x) 0) as [-> | N]; [lra |].
    left. apply exp_increasing. nra.
Qed.

Lemma float_pow_unit (x y : R) :
  0 < x <= 1 -> 0 <= y <= 1 -> Py.float_pow x y = Ok (Rpower x y).
Proof.
  intros Hx Hy. pose proof float_range as [[U0 U1] O1].
  pose proof (Rpower_unit x y Hx Hy) as [Hl Hu].
  rewrite float_pow_pos_base by lra. unfold Py.pow_result.
  rewrite Rabs_Rpower.
  destruct (Rle_dec Py.float_overflow (Rpower x y)); [lra |].
  destruct (Rle_dec (Rpower x y) Py.float_underflow); [| reflexivity].
  destruct (Rlt_dec Py.float_underflow (Rabs x)) as [L | _]; [| reflexivity].
  rewrite Rabs_pos_eq in L by lra. lra.
Qed.



Lemma Rpower_inv_base (r y : R) : 0 < r -> Rpower (1 / r) y = Rpower r (- y).
Proof.
  intros Hr. unfold Rpower. f_equal.
  replace (1 / r) with (/ r) by (unfold Rdiv; ring).
  rewrite ln_Rinv by assumption. ring.
Qed.

(** [r ^ (-t) <= 1] for [r >= 1] and [t >= 0], strictly below 1 when both
    are strict. *)
Lemma Rpower_neg_le_1 (r t : R) : 1 <= r -> 0 <= t -> Rpower r (- t) <= 1.
Proof.
  intros Hr Ht. unfold Rpower. rewrite <- exp_0.
  destruct (Req_dec_T (- t * ln r) 0) as [-> | N]; [lra |].
  left. apply exp_increasing.
  assert (0 <= ln r).
  { rewrite <- ln_1. destruct Hr as [Hr | <-]; [| lra].
    left. apply ln_increasing; lra. }
  nra.
Qed.

Lemma Rpower_neg_lt_1 (r t : R) : 1 < r -> 0 < t -> Rpower r (- t) < 1.
Proof.
  intros Hr Ht. unfold Rpower. rewrite <- exp_0.
  apply exp_increasing.
  assert (0 < ln r) by (rewrite <- ln_1; apply ln_increasing; lra).
  nra.
Qed.

Lemma max2_Rmax (a b : R) : Py.max2 a b = Rmax a b.
Proof.
  unfold Py.max2, Rmax.
  destruct (Rlt_dec a b), (Rle_dec a b); lra.
Qed.

Lemma gt_true_iff (a b : R) : Py.gt a b = true <-> b < a.
Proof.
  unfold Py.gt. destruct (Rlt_dec b a); split; intros; try assumption;
    try reflexivity; try discriminate; contradiction.
Qed.

Lemma gt_false_iff (a b : R) : Py.gt a b = false <-> a <= b.
Proof.
  unfold Py.gt. destruct (Rlt_dec b a); split; intros; try reflexivity;
    try discriminate; lra.
Qed.

Lemma fold_max2_bounded (l : list R) (x : R) :
  (forall y, In y l -> y <= x) -> fold_left Py.max2 l x = x.
Proof.
  revert x. induction l as [| y l IH]; intros x H; [reflexivity |].
  cbn [fold_left].
  replace (Py.max2 x y) with x.
  - apply IH. intros z Hz. apply H. now right.
  - unfold Py.max2. destruct (Rlt_dec x y) as [L | _]; [| reflexivity].
    specialize (H y (or_introl eq_refl)). lra.
Qed.

(** ** Ranges and comprehensions *)


Lemma range2_nth (a b : Z) (k : nat) :
  (k < Z.to_nat (b - a))%nat ->
  nth_error (Py.range2 a b) k = Some (a + Z.of_nat k)%Z.
Proof.
  intros Hk. unfold Py.range2.
  rewrite nth_error_map, nth_error_seq.
  destruct (Nat.ltb_spec k (Z.to_nat (b - a))); [reflexivity | lia].
Qed.

Lemma range2_In (a b i : Z) : In i (Py.range2 a b) <-> (a <= i < b)%Z.
Proof.
  unfold Py.range2. rewrite in_map_iff. split.
  - intros [k [<- Hk]]. apply in_seq in Hk. lia.
  - intros Hi. exists (Z.to_nat (i - a)). split; [lia |].
    apply in_seq. lia.
Qed.

Lemma range2_cons (a b : Z) :
  (a < b)%Z -> Py.range2 a b = a :: Py.range2 (a + 1) b.
Proof.
  intros Hab. unfold Py.range2.
  replace (Z.to_nat (b - a)) with (S (Z.to_nat (b - (a + 1)))) by lia.
  cbn [seq map]. f_equal; [lia |].
  rewrite <- seq_shift, map_map. apply map_ext. intros k. lia.
Qed.

Lemma range2_empty (a b : Z) : (b <= a)%Z -> Py.range2 a b = [].
Proof.
  intros Hab. unfold Py.range2.
  replace (Z.to_nat (b - a)) with 0%nat by lia. reflexivity.
Qed.

Lemma comprehension_map {A C : Type} (f : A -> result C) (g : A -> C)
    (l : list A) :
  (forall a, In a l -> f a = Ok (g a)) -> comprehension f l = Ok (map g l).
Proof.
  induction l as [| a l IH]; intros H; [reflexivity |].
  cbn [comprehension map]. rewrite (H a (or_introl eq_refl)). cbn [rbind].
  rewrite IH; [reflexivity |]. intros x Hx. apply H. now right.
Qed.

Lemma comprehension_length {A C : Type} (f : A -> result C) (l : list A)
    (out : list C) :
  comprehension f l = Ok out -> List.length out = List.length l.
Proof.
  revert out. induction l as [| a l IH]; intros out H; cbn in H.
  - now inversion H.
  - destruct (f a) as [c |]; cbn in H; [| discriminate].
    destruct (comprehension f l) as [cs |]; cbn in H; [| discriminate].
    inversion H. cbn. f_equal. now apply IH.
Qed.

(** ** The class-frequency profile *)

Lemma ratio_nonneg (C i : Z) :
  (2 <= C)%Z -> (0 <= i)%Z -> 0 <= IZR i / IZR (C - 1).
Proof.
  intros HC Hi.
  assert (0 < IZR (C - 1)) by (apply IZR_lt; lia).
  assert (0 <= IZR i) by (apply IZR_le; lia).
  apply Rmult_le_pos; [assumption |]. left. now apply Rinv_0_lt_compat.
Qed.

Lemma num_sample_closed_form (C r : Z) :
  (2 <= C)%Z -> (1 <= r)%Z ->
  num_sample C r = Ok (map (exponential_count C r) (Py.range C)).
Proof.
  intros HC Hr. unfold num_sample.
  assert (HrR : 0 < IZR r) by (apply IZR_lt; lia).
  assert (HCR : IZR C <> 0) by (apply not_0_IZR; lia).
  assert (HC1 : IZR (C - 1) <> 0) by (apply not_0_IZR; lia).
  rewrite true_div_ok by lra. cbn [rbind].
  rewrite true_div_ok by assumption. cbn [rbind].
  apply comprehension_map. intros i Hi.
  rewrite true_div_ok by assumption. cbn [rbind].
  rewrite float_pow_unit; cycle 1.
  { assert (1 <= IZR r) by (apply IZR_le; lia).
    split; [apply Rdiv_pos_pos; lra |].
    apply div_le_1; lra. }
  { unfold Py.range in Hi. apply range2_In in Hi. split; [apply ratio_nonneg; lia |].
    assert (0 < IZR (C - 1)) by (apply IZR_lt; lia).
    apply div_le_1; [assumption | apply IZR_le; lia]. }
  cbn [rbind].
  unfold exponential_count. now rewrite Rpower_inv_base.
Qed.

Lemma exponential_count_first (C r : Z) :
  (1 <= r)%Z -> exponential_count C r 0 = 50000 / IZR C.
Proof.
  intros Hr. unfold exponential_count.
  assert (0 < IZR r) by (apply IZR_lt; lia).
  replace (- (0 / IZR (C - 1))) with 0 by (unfold Rdiv; ring).
  rewrite Rpower_O by assumption. ring.
Qed.




(** ** The scale factors *)


Lemma exponential_count_max (C r : Z) :
  (2 <= C)%Z -> (1 <= r)%Z ->
  Py.max_list (map (exponential_count C r) (Py.range C)) = Ok (50000 / IZR C).
Proof.
  intros HC Hr. unfold Py.range. rewrite range2_cons by lia.
  cbn [map Py.max_list]. f_equal.
  assert (HCR : 0 < IZR C) by (apply IZR_lt; lia).
  assert (HrR : 1 <= IZR r) by (apply IZR_le; lia).
  rewrite exponential_count_first by assumption. apply fold_max2_bounded.
  intros y Hy. apply in_map_iff in Hy. destruct Hy as [i [<- Hi]].
  apply range2_In in Hi. unfold exponential_count.
  assert (Rpower (IZR r) (- (IZR i / IZR (C - 1))) <= 1).
  { apply Rpower_neg_le_1; [assumption |]. apply ratio_nonneg; lia. }
  assert (0 < 50000 / IZR C) by (apply Rdiv_pos_pos; lra).
  nra.
Qed.

Lemma normalized_closed_form (C r : Z) :
  (2 <= C)%Z -> (1 <= r)%Z ->
  normalized (map (exponential_count C r) (Py.range C)) =
    Ok (map (spec_norm C r) (Py.range C)).
Proof.
  intros HC Hr. unfold normalized.
  rewrite exponential_count_max by assumption.
  assert (HCR : 0 < IZR C) by (apply IZR_lt; lia).
  assert (HM : 0 < 50000 / IZR C) by (apply Rdiv_pos_pos; lra).
  erewrite comprehension_map with (g := fun n => n / (50000 / IZR C)).
  - f_equal. rewrite map_map. apply map_ext. intros i.
    unfold exponential_count, spec_norm. field. lra.
  - intros n _. cbn [rbind]. apply true_div_ok. lra.
Qed.

(** On the profile the scale factors lie between 1 and the factor
    [r ^ (- p)] of the least frequent class. *)
Lemma spec_scale_bounds (C r : Z) (p : R) (i : Z) :
  (2 <= C)%Z -> (1 <= r)%Z -> (0 <= i <= C - 1)%Z ->
  Rmin 1 (Rpower (IZR r) (- p)) <= spec_scale C r p i
    <= Rmax 1 (Rpower (IZR r) (- p)).
Proof.
  intros HC Hr Hi. unfold spec_scale.
  assert (HrR : 1 <= IZR r) by (apply IZR_le; lia).
  assert (Ht0 : 0 <= IZR i / IZR (C - 1)) by (apply ratio_nonneg; lia).
  assert (Ht1 : IZR i / IZR (C - 1) <= 1).
  { apply div_le_1; [apply IZR_lt; lia | apply IZR_le; lia]. }
  set (t := IZR i / IZR (C - 1)) in *.
  assert (E0 : Rpower (IZR r) 0 = 1) by (apply Rpower_O; lra).
  unfold Rmin, Rmax.
  destruct (Rle_dec 0 p) as [Hp | Hp].
  - assert (Rpower (IZR r) (- p) <= Rpower (IZR r) (- t * p))
      by (apply Rle_Rpower; [assumption | nra]).
    assert (Rpower (IZR r) (- t * p) <= Rpower (IZR r) 0)
      by (apply Rle_Rpower; [assumption | nra]).
    destruct (Rle_dec 1 (Rpower (IZR r) (- p))); lra.
  - assert (Rpower (IZR r) (- t * p) <= Rpower (IZR r) (- p))
      by (apply Rle_Rpower; [assumption | nra]).
    assert (Rpower (IZR r) 0 <= Rpower (IZR r) (- t * p))
      by (apply Rle_Rpower; [assumption | nra]).
    destruct (Rle_dec 1 (Rpower (IZR r) (- p))); lra.
Qed.

Lemma spec_scale_in_range (C r : Z) (p : R) (i : Z) (lo hi : R) :
  (2 <= C)%Z -> (1 <= r)%Z -> (0 <= i <= C - 1)%Z ->
  lo < 1 -> 1 < hi -> lo < Rpower (IZR r) (- p) < hi ->
  lo < spec_scale C r p i < hi.
Proof.
  intros HC Hr Hi Hlo Hhi Hp.
  pose proof (spec_scale_bounds C r p i HC Hr Hi) as [H1 H2].
  unfold Rmin, Rmax in *.
  destruct (Rle_dec 1 (Rpower (IZR r) (- p))); lra.
Qed.


(** The power of a normalized count of the profile, before the range of
    binary64 is applied. *)
Lemma float_pow_spec_norm (C r : Z) (p : R) (i : Z) :
  Py.float_pow (spec_norm C r i) p =
    Py.pow_result (spec_norm C r i) (spec_scale C r p i).
Proof.
  rewrite float_pow_pos_base by apply Rpower_pos.
  unfold spec_norm, spec_scale. now rewrite Rpower_mult.
Qed.

(** When [r ^ (- p)] lies within the range of binary64, every scale factor
    of the profile is the real power. *)
Lemma strengthened_closed_form (C r : Z) (p : R) :
  (2 <= C)%Z -> (1 <= r)%Z ->
  Py.float_underflow < Rpower (IZR r) (- p) < Py.float_overflow ->
  strengthened p (map (spec_norm C r) (Py.range C)) =
    Ok (map (spec_scale C r p) (Py.range C)).
Proof.
  intros HC Hr Hp. unfold strengthened. pose proof float_range as [[U0 U1] O1].
  erewrite comprehension_map with (g := fun n => Rpower n p).
  - f_equal. rewrite map_map. apply map_ext. intros i.
    unfold spec_norm, spec_scale. apply Rpower_mult.
  - intros n Hn. apply in_map_iff in Hn. destruct Hn as [i [<- Hi]].
    unfold Py.range in Hi. apply range2_In in Hi.
    rewrite float_pow_spec_norm.
    replace (Rpower (spec_norm C r i) p) with (spec_scale C r p i)
      by (unfold spec_norm, spec_scale; now rewrite Rpower_mult).
    pose proof (spec_scale_in_range C r p i _ _ HC Hr
                  ltac:(lia) U1 O1 Hp) as [H1 H2].
    apply pow_result_exact; rewrite Rabs_pos_eq; lra.
Qed.









(** ** Division of the weight rows *)




Lemma f32_quotient_exact (x q : R) :
  f32_underflow < Rabs q < f32_overflow -> f32_quotient x q = Fin q.
Proof.
  intros [Hu Ho]. unfold f32_quotient.
  destruct (Rle_dec f32_overflow (Rabs q)); [lra |].
  destruct (Rle_dec (Rabs q) f32_underflow); [lra | reflexivity].
Qed.

Lemma to_float32_exact (v : R) :
  f32_underflow < v < f32_overflow -> to_float32 v = Fin v.
Proof.
  intros [Hu Ho]. pose proof f32_range as [[U0 U1] O1]. unfold to_float32.
  destruct (Rle_dec f32_overflow v); [lra |].
  destruct (Rle_dec v (- f32_overflow)); [lra |].
  destruct (Rle_dec (Rabs v) f32_underflow) as [L | _]; [| reflexivity].
  rewrite Rabs_pos_eq in L by lra. lra.
Qed.





Lemma tdiv_fin (x s : R) :
  s <> 0 -> tdiv (Fin x) (Fin s) = f32_quotient x (x / s).
Proof.
  intros Hs. cbn [tdiv]. destruct (Req_dec_T s 0); [contradiction | reflexivity].
Qed.




Lemma div_rows_nth (W : tensor) (ns : list tval) (i : nat) (row : list tval)
    (s : tval) :
  nth_error W i = Some row -> nth_error ns i = Some s ->
  nth_error (div_rows W ns) i = Some (div_row row s).
Proof.
  revert ns i. induction W as [| r0 W IH]; intros ns i HW Hs.
  - destruct i; discriminate.
  - destruct ns as [| s0 ns]; [destruct i; discriminate |].
    destruct i as [| i]; cbn in *.
    + now inversion HW; inversion Hs.
    + now apply IH.
Qed.

Lemma div_rows_shape (W : tensor) (ns : list tval) :
  List.length W = List.length ns -> shape (div_rows W ns) = shape W.
Proof.
  revert ns. induction W as [| r0 W IH]; intros ns H; [reflexivity |].
  destruct ns as [| s0 ns]; [discriminate |].
  cbn in *. unfold div_row at 1. rewrite length_map. f_equal.
  apply IH. now inversion H.
Qed.

Lemma div_rows_length (W : tensor) (ns : list tval) :
  List.length W = List.length ns ->
  List.length (div_rows W ns) = List.length W.
Proof.
  revert ns. induction W as [| row W IH]; intros ns H; [reflexivity |].
  destruct ns as [| s ns]; [discriminate |].
  cbn in *. f_equal. apply IH. now inversion H.
Qed.

Lemma tensor_div_same_rows (W : tensor) (ns : list tval) :
  List.length W = List.length ns -> tensor_div W ns = Ok (div_rows W ns).
Proof.
  intros H. unfold tensor_div. now rewrite H, Nat.eqb_refl.
Qed.

Lemma FloatTensor_length (ns : list R) :
  List.length (FloatTensor ns) = List.length ns.
Proof. apply length_map. Qed.

Lemma FloatTensor_nth (ns : list R) (i : nat) (x : R) :
  nth_error ns i = Some x ->
  nth_error (FloatTensor ns) i = Some (to_float32 x).
Proof. intros H. unfold FloatTensor. now rewrite nth_error_map, H. Qed.

Lemma scale_factors_length (counts : list R) (p : R) (s : list R) :
  scale_factors counts p = Ok s -> List.length s = List.length counts.
Proof.
  unfold scale_factors, normalized, strengthened. intros H.
  destruct (comprehension _ counts) as [ns |] eqn:E; cbn in H; [| discriminate].
  apply comprehension_length in E. apply comprehension_length in H. congruence.
Qed.

Lemma rescale_same_shape (W : tensor) (counts : list R) (p : R)
    (new_W : tensor) :
  List.length W = List.length counts ->
  rescale W counts p = Ok new_W -> shape new_W = shape W.
Proof.
  intros HL H. unfold rescale in H.
  destruct (scale_factors counts p) as [s |] eqn:E; cbn in H; [| discriminate].
  apply scale_factors_length in E.
  rewrite tensor_div_same_rows in H by (rewrite FloatTensor_length; congruence).
  inversion H. apply div_rows_shape. rewrite FloatTensor_length. congruence.
Qed.

(** ** The scale factors of the computed profile *)




Lemma spec_scale_last (C r : Z) (p : R) :
  (2 <= C)%Z -> spec_scale C r p (C - 1) = Rpower (IZR r) (- p).
Proof.
  intros HC. unfold spec_scale. f_equal.
  assert (IZR (C - 1) <> 0) by (apply not_0_IZR; lia).
  field. assumption.
Qed.

Lemma range_nth (C i : Z) :
  (0 <= i < C)%Z -> nth_error (Py.range C) (Z.to_nat i) = Some i.
Proof.
  intros Hi. unfold Py.range. rewrite range2_nth by lia. f_equal. lia.
Qed.


(** The rescaling on the script's profile, when [r ^ (- p)] does not
    overflow: the rows are divided by the float32 factors. *)
Lemma rescale_profile (C r : Z) (p : R) (s : list R) (W : tensor) :
  (2 <= C)%Z -> (1 <= r)%Z ->
  strengthened p (map (spec_norm C r) (Py.range C)) = Ok s ->
  List.length s = Z.to_nat C -> List.length W = Z.to_nat C ->
  rescale W (map (exponential_count C r) (Py.range C)) p =
    Ok (div_rows W (FloatTensor s)).
Proof.
  intros HC Hr Hs Hl HW. unfold rescale, scale_factors.
  rewrite normalized_closed_form by assumption. cbn [rbind].
  rewrite Hs. cbn [rbind]. apply tensor_div_same_rows.
  rewrite FloatTensor_length. congruence.
Qed.



(** ** Zero counts *)








Lemma Rpower_Z (r k : Z) :
  (0 < r)%Z -> (0 <= k)%Z -> Rpower (IZR r) (IZR k) = IZR (r ^ k).
Proof.
  intros Hr Hk. assert (0 < IZR r) by (apply IZR_lt; lia).
  rewrite <- (Z2Nat.id k) at 1 by assumption.
  rewrite <- INR_IZR_INZ, Rpower_pow by assumption.
  rewrite pow_IZR. now rewrite Z2Nat.id.
Qed.

(** [r ^ (- k)] for integers, as a quotient of integers. *)
Lemma Rpower_neg_Z (r k : Z) :
  (0 < r)%Z -> (0 <= k)%Z -> Rpower (IZR r) (- IZR k) = / IZR (r ^ k).
Proof.
  intros Hr Hk. rewrite Rpower_Ropp. f_equal. now apply Rpower_Z.
Qed.






Lemma binary64_power_underflows :
  Rpower (IZR 100) (- (200)) <= Py.float_underflow.
Proof.
  unfold Py.float_underflow. rewrite (Rpower_neg_Z 100 200) by lia.
  apply Rinv_le_contravar; [apply IZR_lt; reflexivity | apply IZR_le].
  vm_compute. discriminate.
Qed.

Lemma hundredth_above_underflow : f32_underflow < 1 / 100.
Proof.
  unfold f32_underflow, Rdiv. rewrite Rmult_1_l. apply Rinv_lt_contravar.
  - rewrite <- mult_IZR. apply IZR_lt. reflexivity.
  - apply IZR_lt. reflexivity.
Qed.

(** With [--imbalance 100] the power [100 ^ (- 25)] is a binary64 number
    below the range of float32, and [100 ^ (- 200)] is below that of
    binary64. *)
Lemma hundred_power_underflows :
  Rpower (IZR 100) (- (25)) <= f32_underflow /\
  Rpower (IZR 100) (- (200)) <= f32_underflow.
Proof.
  unfold f32_underflow. split.
  - rewrite (Rpower_neg_Z 100 25) by lia.
    apply Rinv_le_contravar; [apply IZR_lt; reflexivity | apply IZR_le].
    vm_compute. discriminate.
  - rewrite (Rpower_neg_Z 100 200) by lia.
    apply Rinv_le_contravar; [apply IZR_lt; reflexivity | apply IZR_le].
    vm_compute. discriminate.
Qed.

Lemma hundred_power_overflows :
  Py.float_overflow <= Rpower (IZR 100) (- - (200)).
Proof.
  rewrite Ropp_involutive, (Rpower_Z 100 200) by lia.
  unfold Py.float_overflow. apply IZR_le. vm_compute. discriminate.
Qed.

(** [0.01 ** 200.0] is [0.0] and [0.01 ** -200.0] raises
    [OverflowError]. *)
Lemma float_pow_range_examples :
  Py.float_pow (1 / 100) 200 = Ok 0 /\
  Py.float_pow (1 / 100) (- (200)) = Raise OverflowError.
Proof.
  pose proof float_range as [[U0 U1] O1].
  pose proof f32_within_float as [UU _].
  pose proof f32_range as [[V0 V1] _].
  rewrite !float_pow_pos_base, !Rpower_inv_base by lra. split.
  - destruct hundred_power_underflows as [_ H].
    pose proof (Rpower_pos (IZR 100) (- (200))).
    assert (Hb : Py.float_underflow < Rabs (1 / 100)).
    { rewrite Rabs_pos_eq by lra.
      pose proof hundredth_above_underflow. lra. }
    unfold Py.pow_result. rewrite Rabs_Rpower.
    destruct (Rle_dec Py.float_overflow _); [lra |].
    destruct (Rle_dec _ Py.float_underflow) as [_ | N].
    + destruct (Rlt_dec Py.float_underflow _); [reflexivity | lra].
    + exfalso. apply N. apply binary64_power_underflows.
  - apply pow_result_overflow. rewrite Rabs_Rpower.
    exact hundred_power_overflows.
Qed.



(** ** The script *)

(** Unfold the straight-line operations of the script in the goal. *)
Ltac run :=
  cbv beta iota zeta delta
    [bind ret get put emit lift modify
     set_best_acc set_state_lr set_args_checkpoint set_model set_optimizer
     set_files model_set_mode model_load_state_dict
     optimizer_load_state_dict model_call test_batch];
  cbn [res final trace app
       best_acc state_lr args_checkpoint model optimizer files
       with_best_acc with_state_lr with_args_checkpoint with_model
       with_optimizer with_files
       state_dict training fc_weight others param_groups opt_state].

Section ScriptFacts.

Context {B : Backend}.

Lemma bind_ok {A C : Type} (c : M A) (k : A -> M C) (w : World) (a : A) :
  res (c w) = Ok a ->
  bind c k w =
    Outcome (res (k a (final (c w)))) (final (k a (final (c w))))
            (trace (c w) ++ trace (k a (final (c w)))).
Proof.
  unfold bind. destruct (c w) as [r w1 t1]. cbn [res final trace].
  intros ->. now destruct (k a w1).
Qed.

Lemma bind_raise {A C : Type} (c : M A) (k : A -> M C) (w : World) (e : exn) :
  res (c w) = Raise e ->
  bind c k w = Outcome (Raise e) (final (c w)) (trace (c w)).
Proof.
  unfold bind. destruct (c w) as [r w1 t1]. cbn [res final trace].
  now intros ->.
Qed.

Lemma saves_app (t1 t2 : list event) : saves (t1 ++ t2) = saves t1 ++ saves t2.
Proof. unfold saves. apply flat_map_app. Qed.

Lemma results_app (t1 t2 : list event) :
  results (t1 ++ t2) = results t1 ++ results t2.
Proof. unfold results. apply flat_map_app. Qed.

Lemma reported_best_app (t1 t2 : list event) :
  reported_best (t1 ++ t2) = reported_best t1 ++ reported_best t2.
Proof. unfold reported_best. apply flat_map_app. Qed.

Lemma logged_lr_app (t1 t2 : list event) :
  logged_lr (t1 ++ t2) = logged_lr t1 ++ logged_lr t2.
Proof. unfold logged_lr. apply flat_map_app. Qed.

Lemma progress_only (tr : list event) :
  Forall progress_event tr ->
  saves tr = [] /\ results tr = [] /\ reported_best tr = [] /\
  logged_lr tr = [].
Proof.
  induction 1 as [| e tr He _ IH]; [cbn; auto |].
  destruct e; cbn in He; try contradiction. cbn. exact IH.
Qed.

(** *** [test] *)

Lemma test_loop_eq (bs : list batch) (ms : Meters) (w : World) :
  test_loop bs ms w = Outcome (Ok (meters_over (model w) bs ms)) w [].
Proof.
  revert ms. induction bs as [| b bs IH]; intros ms; [reflexivity |].
  cbn [test_loop]. run. rewrite IH. reflexivity.
Qed.

Lemma test_eq (testloader : list batch) (w : World) :
  test testloader w =
    Outcome
      (Ok (meter_avg
             (losses (meters_over (eval_mode (model w)) testloader new_meters)),
           meter_avg
             (top1 (meters_over (eval_mode (model w)) testloader new_meters))))
      (with_model (eval_mode (model w)) w) [].
Proof.
  unfold test. run. rewrite test_loop_eq. reflexivity.
Qed.

(** *** [train] *)

(** What [train] and [test] never write. *)
Lemma optimizer_step_total (b : batch) (w : World) :
  res (optimizer_step b w) = Ok tt /\ trace (optimizer_step b w) = [].
Proof.
  unfold optimizer_step. run.
  destruct (sgd_step _ _ _ _ _ _) as [[fc' oth'] os']. run. auto.
Qed.

Lemma optimizer_step_frame (b : batch) (w : World) :
  same_bookkeeping w (final (optimizer_step b w)) /\
  training (model (final (optimizer_step b w))) = training (model w).
Proof.
  unfold optimizer_step, same_bookkeeping. run.
  destruct (sgd_step _ _ _ _ _ _) as [[fc' oth'] os']. run. auto 10.
Qed.

Lemma same_bookkeeping_refl (w : World) : same_bookkeeping w w.
Proof. unfold same_bookkeeping. auto. Qed.

Lemma same_bookkeeping_trans (w1 w2 w3 : World) :
  same_bookkeeping w1 w2 -> same_bookkeeping w2 w3 -> same_bookkeeping w1 w3.
Proof.
  unfold same_bookkeeping. intros (a1 & a2 & a3 & a4 & a5) (b1 & b2 & b3 & b4 & b5).
  repeat split; congruence.
Qed.

Lemma outcome_eta {A : Type} (o : outcome A) :
  o = Outcome (res o) (final o) (trace o).
Proof. now destruct o. Qed.

Lemma optimizer_step_eq (b : batch) (w : World) :
  optimizer_step b w = Outcome (Ok tt) (final (optimizer_step b w)) [].
Proof.
  destruct (optimizer_step_total b w) as [Hr Ht].
  rewrite (outcome_eta (optimizer_step b w)) at 1. now rewrite Hr, Ht.
Qed.

Lemma train_batch_eq (epoch denom : Z) (per : R) (ms : Meters)
    (batch_idx : Z) (b : batch) (w : World) :
  train_batch epoch denom per ms batch_idx b w =
    let outputs :=
      forward (fc_weight (state_dict (model w))) (others (state_dict (model w)))
              (training (model w)) (inputs b) in
    let w' := final (optimizer_step b w) in
    if (denom =? 0)%Z then Outcome (Raise ZeroDivisionError) w' []
    else
      Outcome (Ok (record_batch ms b outputs)) w'
        (if ((batch_idx + 1) mod denom =? 0)%Z
         then [PrintProgress epoch (per * IZR (batch_idx / denom + 1))
                             (criterion outputs (targets b))]
         else []).
Proof.
  unfold train_batch. run. rewrite optimizer_step_eq.
  unfold Py.int_mod, Py.floor_div.
  destruct (denom =? 0)%Z; run; [reflexivity |].
  destruct ((batch_idx + 1) mod denom =? 0)%Z; run; reflexivity.
Qed.

Lemma train_loop_frame (epoch denom : Z) (per : R) (bs : list batch) :
  forall (batch_idx : Z) (ms : Meters) (w : World),
    let o := train_loop epoch denom per batch_idx bs ms w in
    same_bookkeeping w (final o) /\
    training (model (final o)) = training (model w) /\
    Forall progress_event (trace o).
Proof.
  induction bs as [| b bs IH]; intros batch_idx ms w.
  - cbn. auto using same_bookkeeping_refl.
  - cbn [train_loop]. cbv zeta.
    destruct (optimizer_step_frame b w) as [Hf Hm].
    pose proof (train_batch_eq epoch denom per ms batch_idx b w) as Hb.
    cbv zeta in Hb.
    destruct (denom =? 0)%Z.
    + rewrite (bind_raise _ _ w ZeroDivisionError) by (now rewrite Hb).
      rewrite Hb. cbn [res final trace]. auto.
    + rewrite (bind_ok _ _ w _ (f_equal res Hb)).
      rewrite Hb. cbn [res final trace].
      specialize (IH (batch_idx + 1)%Z
                     (record_batch ms b
                        (forward (fc_weight (state_dict (model w)))
                           (others (state_dict (model w)))
                           (training (model w)) (inputs b)))
                     (final (optimizer_step b w))).
      cbv zeta in IH. destruct IH as (I1 & I2 & I3).
      split; [eauto using same_bookkeeping_trans |].
      split; [congruence |].
      apply Forall_app. split; [| exact I3].
      destruct ((batch_idx + 1) mod denom =? 0)%Z; repeat constructor.
Qed.

Lemma train_frame (trainloader : list batch) (epoch : Z) (w : World) :
  let o := train trainloader epoch w in
  same_bookkeeping w (final o) /\ Forall progress_event (trace o).
Proof.
  cbv zeta. unfold train.
  rewrite (bind_ok (model_set_mode true) _ w tt) by reflexivity.
  change (final (model_set_mode true w))
    with (with_model (train_mode (model w)) w).
  change (trace (model_set_mode true w)) with (@nil event).
  set (w1 := with_model (train_mode (model w)) w).
  set (d := (Z.of_nat (List.length trainloader) / num_print)%Z).
  set (p := 1 / IZR num_print * 100).
  destruct (train_loop_frame epoch d p trainloader 0%Z new_meters w1)
    as (H1 & _ & H3).
  cbv zeta in H1, H3.
  assert (H0 : same_bookkeeping w
                 (final (train_loop epoch d p 0 trainloader new_meters w1)))
    by exact H1.
  destruct (res (train_loop epoch d p 0 trainloader new_meters w1))
    as [ms' | ex] eqn:E.
  - rewrite (bind_ok _ _ w1 ms' E). cbn [res final trace app].
    rewrite app_nil_r. auto.
  - rewrite (bind_raise _ _ w1 ex E). cbn [res final trace app]. auto.
Qed.

End ScriptFacts.

Section TrainTest.

Context {B : Backend}.

(** C9. Running [test] leaves the model's state (every entry of its
    [state_dict]) and the optimizer unchanged, as well as the rest of the
    world; it writes the mode flag only (inference mode), prints nothing, and
    returns the averages of the meters that [record_batch], the bookkeeping
    of [train], fills from the forward pass of each batch. *)
Theorem test_leaves_model_and_optimizer (testloader : list batch) (w : World) :
  let o := test testloader w in
  state_dict (model (final o)) = state_dict (model w) /\
  optimizer (final o) = optimizer w /\
  best_acc (final o) = best_acc w /\
  state_lr (final o) = state_lr w /\
  args_checkpoint (final o) = args_checkpoint w /\
  files (final o) = files w /\
  training (model (final o)) = false /\
  trace o = [] /\
  res o =
    Ok (meter_avg
          (losses (meters_over (eval_mode (model w)) testloader new_meters)),
        meter_avg
          (top1 (meters_over (eval_mode (model w)) testloader new_meters))).
Proof.
  cbv zeta. rewrite test_eq. cbn. auto 10.
Qed.

(** C10. For a training loader of at least one and fewer than 13 batches,
    [denom = max_iter // 13] is 0 and [train] raises [ZeroDivisionError] at
    the test [(batch_idx + 1) % denom] of the first batch: the first
    training step has been made, nothing has been printed and no result is
    returned. *)
Theorem train_short_loader_raises (trainloader : list batch) (epoch : Z)
    (w : World) :
  (1 <= List.length trainloader < 13)%nat ->
  let o := train trainloader epoch w in
  (Z.of_nat (List.length trainloader) / num_print = 0)%Z /\
  res o = Raise ZeroDivisionError /\
  trace o = [] /\
  exists b rest,
    trainloader = b :: rest /\
    final o = final (optimizer_step b (with_model (train_mode (model w)) w)).
Proof.
  intros Hlen. cbv zeta.
  assert (Hd : (Z.of_nat (List.length trainloader) / num_print = 0)%Z).
  { apply Z.div_small. unfold num_print. lia. }
  split; [exact Hd |].
  destruct trainloader as [| b rest]; [cbn in Hlen; lia |].
  set (w1 := with_model (train_mode (model w)) w).
  assert (Hloop : forall per ms,
            train_loop epoch 0 per 0 (b :: rest) ms w1 =
              Outcome (Raise ZeroDivisionError) (final (optimizer_step b w1)) []).
  { intros per ms. cbn [train_loop].
    rewrite (bind_raise _ _ _ ZeroDivisionError);
      rewrite train_batch_eq; reflexivity. }
  unfold train.
  rewrite (bind_ok (model_set_mode true) _ w tt) by reflexivity.
  change (final (model_set_mode true w)) with w1.
  change (trace (model_set_mode true w)) with (@nil event).
  rewrite Hd.
  rewrite (bind_raise _ _ w1 ZeroDivisionError) by (now rewrite Hloop).
  rewrite Hloop. cbn [res final trace app].
  split; [reflexivity |]. split; [reflexivity |].
  exists b, rest. split; reflexivity.
Qed.

End TrainTest.

Lemma train_short_loader_raises_witness :
  res (train (B := unit_backend) [unit_batch] 0 example_world) =
    Raise ZeroDivisionError.
Proof.
  apply (train_short_loader_raises (B := unit_backend)
           [unit_batch] 0%Z example_world).
  cbn. lia.
Defined.

Section Loop.

Context {B : Backend}.

(** *** [adjust_learning_rate] *)

Lemma adjust_skip (a : Args) (e : Z) (w : World) :
  existsb (Z.eqb e) (schedule a) = false ->
  adjust_learning_rate a e w = Outcome (Ok tt) w [].
Proof. intros H. unfold adjust_learning_rate. now rewrite H. Qed.

Lemma adjust_fire (a : Args) (e : Z) (w : World) :
  existsb (Z.eqb e) (schedule a) = true ->
  adjust_learning_rate a e w =
    Outcome (Ok tt)
      (with_optimizer
         {| param_groups :=
              map (set_group_lr (state_lr w * gamma a))
                  (param_groups (optimizer w));
            opt_state := opt_state (optimizer w) |}
         (with_state_lr (state_lr w * gamma a) w))
      [].
Proof. intros H. unfold adjust_learning_rate. rewrite H. reflexivity. Qed.

Lemma adjust_total (a : Args) (e : Z) (w : World) :
  let o := adjust_learning_rate a e w in
  res o = Ok tt /\ trace o = [] /\
  best_acc (final o) = best_acc w /\
  args_checkpoint (final o) = args_checkpoint w /\
  files (final o) = files w /\
  model (final o) = model w.
Proof.
  cbv zeta. destruct (existsb (Z.eqb e) (schedule a)) eqn:E.
  - rewrite adjust_fire by assumption. cbn. auto 10.
  - rewrite adjust_skip by assumption. cbn. auto 10.
Qed.

(** *** The checkpoint decision *)

Lemma checkpointing_spec (e : Z) (acc : R) (w : World) :
  let o := checkpointing e acc w in
  let c := {| ck_epoch := e + 1;
              ck_state_dict := state_dict (model w);
              ck_acc := acc;
              ck_best_acc := Py.max2 acc (best_acc w);
              ck_optimizer := optimizer w |} in
  res o = Ok tt /\
  trace o = [SaveCheckpoint c (Py.gt acc (best_acc w)) (args_checkpoint w)] /\
  best_acc (final o) = Py.max2 acc (best_acc w) /\
  state_lr (final o) = state_lr w /\
  model (final o) = model w /\
  optimizer (final o) = optimizer w /\
  args_checkpoint (final o) = args_checkpoint w /\
  files (final o) (path_join (args_checkpoint w) checkpoint_name) = Some c.
Proof.
  cbv zeta. unfold checkpointing, save_checkpoint. run.
  destruct (Py.gt acc (best_acc w)); run; unfold write_file;
    rewrite ?String.eqb_refl;
    repeat (split; [reflexivity |]).
  - destruct (String.eqb _ _); reflexivity.
  - reflexivity.
Qed.

Lemma checkpointing_eq (e : Z) (acc : R) (w : World) :
  checkpointing e acc w =
    Outcome (Ok tt) (final (checkpointing e acc w))
      [SaveCheckpoint
         {| ck_epoch := e + 1;
            ck_state_dict := state_dict (model w);
            ck_acc := acc;
            ck_best_acc := Py.max2 acc (best_acc w);
            ck_optimizer := optimizer w |}
         (Py.gt acc (best_acc w)) (args_checkpoint w)].
Proof.
  destruct (checkpointing_spec e acc w) as (Cr & Ct & _).
  cbv zeta in Cr, Ct.
  rewrite (outcome_eta (checkpointing e acc w)) at 1. now rewrite Cr, Ct.
Qed.

(** *** One epoch *)

Lemma epoch_body_cases (a : Args) (trainloader : Z -> list batch)
    (testloader : list batch) (e : Z) (w : World) :
  let o := epoch_body a trainloader testloader e w in
  let w1 := final (adjust_learning_rate a e w) in
  (exists ex,
      res o = Raise ex /\
      saves (trace o) = [] /\ logged_lr (trace o) = [] /\
      reported_best (trace o) = [] /\
      same_bookkeeping w1 (final o)) \/
  (exists c,
      res o = Ok tt /\
      saves (trace o) = [(c, Py.gt (ck_acc c) (best_acc w))] /\
      ck_epoch c = (e + 1)%Z /\
      ck_best_acc c = Py.max2 (ck_acc c) (best_acc w) /\
      logged_lr (trace o) = [(e, state_lr w1)] /\
      reported_best (trace o) = [] /\
      best_acc (final o) = Py.max2 (ck_acc c) (best_acc w) /\
      state_lr (final o) = state_lr w1 /\
      args_checkpoint (final o) = args_checkpoint w /\
      param_groups (optimizer (final o)) = param_groups (optimizer w1)).
Proof.
  cbv zeta. unfold epoch_body.
  destruct (adjust_total a e w) as (Ar & At & Ab & Ac & Af & Am).
  cbv zeta in Ar, At, Ab, Ac, Af, Am.
  rewrite (bind_ok _ _ w tt) by exact Ar. rewrite At.
  set (w1 := final (adjust_learning_rate a e w)) in *.
  destruct (train_frame (trainloader e) e w1) as [Tf Tp]. cbv zeta in Tf, Tp.
  destruct (progress_only _ Tp) as (Ts & _ & Tb & Tl).
  destruct (res (train (trainloader e) e w1)) as [tr | ex] eqn:Tr.
  - right.
    rewrite (bind_ok _ _ w1 tr) by exact Tr.
    set (w2 := final (train (trainloader e) e w1)) in *.
    cbv beta. run. rewrite test_eq. run.
    match goal with
    | |- context [checkpointing e ?x ?w3] =>
        destruct (checkpointing_spec e x w3)
          as (_ & _ & Cb & Cl & _ & Co & Ca & _);
        cbv zeta in Cb, Cl, Co, Ca;
        rewrite (checkpointing_eq e x w3);
        set (acc := x) in *
    end.
    run.
    unfold same_bookkeeping in Tf. destruct Tf as (T1 & T2 & T3 & T4 & T5).
    cbn [best_acc state_lr args_checkpoint with_model optimizer] in *.
    match goal with
    | |- context [SaveCheckpoint ?c0 _ _] => exists c0
    end.
    split; [reflexivity |].
    rewrite !saves_app, !logged_lr_app, !reported_best_app, Ts, Tl, Tb.
    cbn [saves logged_lr reported_best flat_map app ck_acc ck_epoch ck_best_acc].
    rewrite Cb, Cl, Ca, Co.
    rewrite T1, T2, T3, T5, Ab, Ac.
    replace (e + 1 - 1)%Z with e by lia.
    auto 10.
  - left. exists ex.
    rewrite (bind_raise _ _ w1 ex) by exact Tr.
    cbn [res final trace app]. auto 10.
Qed.

(** *** The epoch loop *)

Lemma epoch_loop_cons (a : Args) (trainloader : Z -> list batch)
    (testloader : list batch) (e : Z) (es : list Z) (w : World) :
  let ob := epoch_body a trainloader testloader e w in
  let o := epoch_loop a trainloader testloader (e :: es) w in
  (exists ex, res ob = Raise ex /\ o = Outcome (Raise ex) (final ob) (trace ob)) \/
  (res ob = Ok tt /\
   let orest := epoch_loop a trainloader testloader es (final ob) in
   o = Outcome (res orest) (final orest) (trace ob ++ trace orest)).
Proof.
  cbv zeta. cbn [epoch_loop].
  destruct (res (epoch_body a trainloader testloader e w)) as [[] | ex] eqn:E.
  - right. split; [reflexivity |]. exact (bind_ok _ _ w tt E).
  - left. exists ex. split; [reflexivity |]. exact (bind_raise _ _ w ex E).
Qed.

Lemma epoch_loop_tracking (a : Args) (trainloader : Z -> list batch)
    (testloader : list batch) (es : list Z) :
  forall w : World,
    let o := epoch_loop a trainloader testloader es w in
    let accs := map (fun s => ck_acc (fst s)) (saves (trace o)) in
    map (fun s => (snd s, ck_best_acc (fst s))) (saves (trace o)) =
      best_tracking (best_acc w) accs /\
    best_acc (final o) = final_best (best_acc w) accs.
Proof.
  induction es as [| e es IH]; intros w; cbv zeta.
  - cbn. auto.
  - destruct (epoch_loop_cons a trainloader testloader e es w)
      as [(ex & Hr & ->) | (Hr & ->)];
      destruct (epoch_body_cases a trainloader testloader e w)
        as [(ex' & Br & Bs & _ & _ & Bf) | (c & Br & Bs & _ & Bb & _ & _ & Bfin & _)];
      cbv zeta in *; try congruence; cbn [res final trace].
    + rewrite Bs. cbn. split; [reflexivity |].
      destruct Bf as (-> & _).
      now destruct (adjust_total a e w) as (_ & _ & -> & _).
    + rewrite saves_app, Bs. cbn [app map fst snd best_tracking final_best fold_left].
      destruct (IH (final (epoch_body a trainloader testloader e w)))
        as [I1 I2]. cbv zeta in I1, I2.
      rewrite Bfin in I1, I2. rewrite Bb. split.
      * f_equal. exact I1.
      * exact I2.
Qed.

Lemma epoch_loop_monotone (a : Args) (trainloader : Z -> list batch)
    (testloader : list batch) (es : list Z) :
  forall w : World,
    let o := epoch_loop a trainloader testloader es w in
    best_acc w <= best_acc (final o) /\
    reported_best (trace o) = [] /\
    forall c b, In (c, b) (saves (trace o)) ->
      In (ck_epoch c - 1)%Z es /\
      best_acc w <= ck_best_acc c /\
      (ck_acc c <= best_acc w -> b = false).
Proof.
  induction es as [| e es IH]; intros w; cbv zeta.
  - cbn. split; [lra |]. split; [reflexivity |]. intros c b [].
  - assert (Hmax : forall x, best_acc w <= Py.max2 x (best_acc w)).
    { intros x. rewrite max2_Rmax. apply Rmax_r. }
    destruct (epoch_loop_cons a trainloader testloader e es w)
      as [(ex & Hr & ->) | (Hr & ->)];
      destruct (epoch_body_cases a trainloader testloader e w)
        as [(ex' & Br & Bs & _ & Brb & Bf)
           | (c0 & Br & Bs & Be & Bb & _ & Brb & Bfin & _)];
      cbv zeta in *; try congruence; cbn [res final trace].
    + rewrite Bs, Brb. destruct Bf as (-> & _).
      destruct (adjust_total a e w) as (_ & _ & -> & _).
      split; [lra |]. split; [reflexivity |]. intros c b [].
    + destruct (IH (final (epoch_body a trainloader testloader e w)))
        as (I1 & I2 & I3). cbv zeta in I1, I2, I3.
      rewrite Bfin in I1, I3.
      specialize (Hmax (ck_acc c0)).
      split; [lra |]. split; [now rewrite reported_best_app, Brb, I2 |].
      intros c b Hin. rewrite saves_app, Bs in Hin.
      cbn [app In] in Hin. destruct Hin as [Heq | Hin].
      * inversion Heq; subst c. rewrite Be, Bb.
        split; [left; lia |]. split; [assumption |].
        intros Hle. now apply gt_false_iff.
      * destruct (I3 c b Hin) as (J1 & J2 & J3).
        split; [now right |]. split; [lra |].
        intros Hle. apply J3. lra.
Qed.

End Loop.

Section Orchestrator.

Context {B : Backend}.

Lemma epoch_loop_complete (a : Args) (trainloader : Z -> list batch)
    (testloader : list batch) (es : list Z) :
  forall w : World,
    let o := epoch_loop a trainloader testloader es w in
    res o = Ok tt ->
    map (fun s => ck_epoch (fst s)) (saves (trace o)) = map (Z.add 1) es /\
    map fst (logged_lr (trace o)) = es.
Proof.
  induction es as [| e es IH]; intros w; cbv zeta.
  - cbn. auto.
  - destruct (epoch_loop_cons a trainloader testloader e es w)
      as [(ex & Hr & ->) | (Hr & ->)]; cbn [res final trace];
      [discriminate |].
    destruct (epoch_body_cases a trainloader testloader e w)
      as [(ex' & Br & _) | (c & _ & Bs & Be & _ & Bl & _)];
      cbv zeta in *; [congruence |].
    intros Hok. destruct (IH _ Hok) as [I1 I2].
    rewrite saves_app, logged_lr_app, Bs, Bl. cbn [app map fst].
    rewrite I1, I2, Be. split; f_equal. lia.
Qed.

(** C1. Every epoch computes [is_best] as [test_acc > best_acc], a strict
    comparison (a tie is no improvement), and then sets [best_acc] to the
    greater of the two; along any run of the epoch loop the flags and the
    best accuracies that [save_checkpoint] receives are those of
    [best_tracking] on the test accuracies of the run, and for the
    accuracies 40, 55, 50, 60 from [best_acc = 0] the flags are true, true,
    false, true and the final best accuracy is 60. *)
Theorem best_accuracy_tracking :
  (forall (e : Z) (acc : R) (w : World),
      let o := checkpointing e acc w in
      res o = Ok tt /\
      map snd (saves (trace o)) = [Py.gt acc (best_acc w)] /\
      (Py.gt acc (best_acc w) = true <-> best_acc w < acc) /\
      map (fun s => ck_best_acc (fst s)) (saves (trace o)) =
        [Rmax acc (best_acc w)] /\
      best_acc (final o) = Rmax acc (best_acc w)) /\
  (forall x : R, Py.gt x x = false) /\
  (forall (a : Args) (trainloader : Z -> list batch)
          (testloader : list batch) (es : list Z) (w : World),
      let o := epoch_loop a trainloader testloader es w in
      let accs := map (fun s => ck_acc (fst s)) (saves (trace o)) in
      map (fun s => (snd s, ck_best_acc (fst s))) (saves (trace o)) =
        best_tracking (best_acc w) accs /\
      best_acc (final o) = final_best (best_acc w) accs) /\
  best_tracking 0 [40; 55; 50; 60] =
    [(true, 40); (true, 55); (false, 55); (true, 60)] /\
  final_best 0 [40; 55; 50; 60] = 60.
Proof.
  split; [| split; [| split; [| split]]].
  - intros e acc w. cbv zeta.
    destruct (checkpointing_spec e acc w) as (Cr & Ct & Cb & _).
    cbv zeta in Cr, Ct, Cb. rewrite Ct, Cb, max2_Rmax. cbn.
    split; [assumption |]. split; [reflexivity |].
    split; [apply gt_true_iff |]. split; reflexivity.
  - intros x. apply gt_false_iff. lra.
  - intros a trainloader testloader es w.
    apply epoch_loop_tracking.
  - cbn [best_tracking]. unfold Py.gt, Py.max2.
    repeat (destruct (Rlt_dec _ _); try lra). reflexivity.
  - cbn [final_best fold_left]. unfold Py.max2.
    repeat (destruct (Rlt_dec _ _); try lra).
Qed.

(** *** The learning rate along the loop *)

Lemma adjust_rate (a : Args) (s : Z) (w : World) :
  schedule a = [80; 150]%Z -> gamma a = 0.1 ->
  state_lr w = rate_during (s - 1) ->
  state_lr (final (adjust_learning_rate a s w)) = rate_during s.
Proof.
  intros Hs Hg Hw. unfold adjust_learning_rate. rewrite Hs. cbn [existsb].
  unfold rate_during in *.
  destruct (Z.eqb_spec s 80) as [-> | N80].
  - cbn. rewrite Hg. cbn in Hw. rewrite Hw. lra.
  - destruct (Z.eqb_spec s 150) as [-> | N150].
    + cbn. rewrite Hg. cbn in Hw. rewrite Hw. lra.
    + cbn. rewrite Hw.
      destruct (Z.ltb_spec (s - 1) 80), (Z.ltb_spec s 80); try lia;
        try reflexivity.
      destruct (Z.ltb_spec (s - 1) 150), (Z.ltb_spec s 150); try lia;
        reflexivity.
Qed.

Lemma lr_along_loop (a : Args) (trainloader : Z -> list batch)
    (testloader : list batch) :
  schedule a = [80; 150]%Z -> gamma a = 0.1 ->
  forall (n : nat) (s : Z) (w : World),
    state_lr w = rate_during (s - 1) ->
    let o := epoch_loop a trainloader testloader
               (Py.range2 s (s + Z.of_nat n)) w in
    (forall e x, In (e, x) (logged_lr (trace o)) -> x = rate_during e) /\
    (res o = Ok tt -> state_lr (final o) = rate_during (s + Z.of_nat n - 1)).
Proof.
  intros Hs Hg. induction n as [| n IH]; intros s w Hw; cbv zeta.
  - rewrite range2_empty by lia. cbn. split; [intros e x [] |].
    intros _. rewrite Hw. f_equal. lia.
  - rewrite range2_cons by lia.
    replace (s + Z.of_nat (S n))%Z with (s + 1 + Z.of_nat n)%Z by lia.
    destruct (epoch_loop_cons a trainloader testloader s
                (Py.range2 (s + 1) (s + 1 + Z.of_nat n)) w)
      as [(ex & Hr & ->) | (Hr & ->)];
      destruct (epoch_body_cases a trainloader testloader s w)
        as [(ex' & Br & _ & Bl & _)
           | (c & Br & _ & _ & _ & Bl & _ & _ & Blr & _)];
      cbv zeta in *; try congruence; cbn [res final trace].
    + rewrite Bl. split; [intros e x [] | discriminate].
    + pose proof (adjust_rate a s w Hs Hg Hw) as Hadj.
      destruct (IH (s + 1)%Z
                   (final (epoch_body a trainloader testloader s w)))
        as [I1 I2].
      { rewrite Blr, Hadj. f_equal. lia. }
      split; [| exact I2].
      intros e x Hin. rewrite logged_lr_app, Bl in Hin.
      cbn [app In] in Hin. destruct Hin as [Heq | Hin].
      * inversion Heq; subst. exact Hadj.
      * now apply I1.
Qed.

(** C3. With the schedule [[80; 150]] and [gamma = 0.1]:
    [adjust_learning_rate] changes nothing at an epoch other than 80 and
    150; at 80 and at 150 it multiplies [state['lr']] by 0.1 (0.1 becomes
    0.01, 0.01 becomes 0.001) and writes the new rate to every parameter
    group of the optimizer, leaving their other entries alone; and in a run
    of the epoch loop from epoch 0 with initial rate 0.1 the rate logged for
    epoch [e] is 0.1 before epoch 80, 0.01 from epoch 80 on and 0.001 from
    epoch 150 on. *)
Theorem learning_rate_schedule (a : Args) :
  schedule a = [80; 150]%Z -> gamma a = 0.1 ->
  (forall (w : World) (e : Z),
      e <> 80%Z -> e <> 150%Z ->
      adjust_learning_rate a e w = Outcome (Ok tt) w []) /\
  (forall (w : World) (e : Z),
      e = 80%Z \/ e = 150%Z ->
      let o := adjust_learning_rate a e w in
      res o = Ok tt /\
      state_lr (final o) = state_lr w * 0.1 /\
      Forall (fun g => pg_lr g = state_lr (final o))
             (param_groups (optimizer (final o))) /\
      map pg_hyper (param_groups (optimizer (final o))) =
        map pg_hyper (param_groups (optimizer w)) /\
      opt_state (optimizer (final o)) = opt_state (optimizer w) /\
      model (final o) = model w /\ best_acc (final o) = best_acc w) /\
  (forall w : World,
      (state_lr w = 0.1 ->
       state_lr (final (adjust_learning_rate a 80 w)) = 0.01) /\
      (state_lr w = 0.01 ->
       state_lr (final (adjust_learning_rate a 150 w)) = 0.001)) /\
  (forall (trainloader : Z -> list batch) (testloader : list batch)
          (total : Z) (w : World),
      state_lr w = 0.1 ->
      let o := epoch_loop a trainloader testloader (Py.range2 0 total) w in
      (forall e x, In (e, x) (logged_lr (trace o)) -> x = rate_during e) /\
      (res o = Ok tt ->
       map fst (logged_lr (trace o)) = Py.range2 0 total /\
       ((0 <= total)%Z -> state_lr (final o) = rate_during (total - 1)))).
Proof.
  intros Hs Hg.
  assert (Hfire : forall (w : World) (e : Z), e = 80%Z \/ e = 150%Z ->
            existsb (Z.eqb e) (schedule a) = true).
  { intros w e [-> | ->]; rewrite Hs; reflexivity. }
  split; [| split; [| split]].
  - intros w e N80 N150. apply adjust_skip. rewrite Hs. cbn [existsb].
    destruct (Z.eqb_spec e 80), (Z.eqb_spec e 150); try contradiction.
    reflexivity.
  - intros w e He. cbv zeta. rewrite adjust_fire by now apply Hfire.
    cbn. rewrite Hg. split; [reflexivity |]. split; [reflexivity |].
    split; [| split; [| auto]].
    + apply Forall_forall. intros g Hin. apply in_map_iff in Hin.
      destruct Hin as [g0 [<- _]]. reflexivity.
    + rewrite map_map. apply map_ext. reflexivity.
  - intros w. split; intros Hw;
      rewrite adjust_fire by (apply (Hfire w); auto); cbn;
      rewrite Hg, Hw; lra.
  - intros trainloader testloader total w Hw. cbv zeta.
    assert (Hr : Py.range2 0 total =
                 Py.range2 0 (0 + Z.of_nat (Z.to_nat total))).
    { unfold Py.range2. do 2 f_equal. lia. }
    destruct (lr_along_loop a trainloader testloader Hs Hg
                (Z.to_nat total) 0%Z w) as [L1 L2].
    { rewrite Hw. reflexivity. }
    rewrite <- Hr in L1, L2. split; [exact L1 |].
    intros Hok. split.
    + now apply epoch_loop_complete.
    + intros Ht. rewrite (L2 Hok). f_equal. lia.
Qed.

End Orchestrator.

Lemma learning_rate_schedule_witness :
  state_lr (final (adjust_learning_rate (B := unit_backend)
                     example_args 80 example_world)) = 0.01 /\
  Forall (fun g => pg_lr g = 0.1 * 0.1)
    (param_groups
       (optimizer (final (adjust_learning_rate (B := unit_backend)
                            example_args 80 example_world)))).
Proof.
  pose proof (learning_rate_schedule (B := unit_backend) example_args
                eq_refl eq_refl) as (_ & H2 & H3 & _).
  split.
  - apply (proj1 (H3 example_world)). reflexivity.
  - destruct (H2 example_world 80%Z (or_introl eq_refl)) as (_ & E & F & _).
    cbv zeta in E, F. rewrite E in F. exact F.
Defined.

Section Resume.

Context {B : Backend}.

Lemma resume_block_ok (a : Args) (w : World) (ck : Checkpoint) :
  resume a <> ""%string -> files w (resume a) = Some ck ->
  resume_block a w =
    Outcome (Ok (ck_epoch ck))
      (with_optimizer (ck_optimizer ck)
         (with_model {| state_dict := ck_state_dict ck;
                        training := training (model w) |}
            (with_best_acc (ck_best_acc ck)
               (with_args_checkpoint (path_dirname (resume a)) w))))
      [Print "==> Resuming from checkpoint.."; Print (resume a)].
Proof.
  intros Hne Hf. unfold resume_block.
  destruct (String.eqb_spec (resume a) "") as [E | _]; [contradiction |].
  run. rewrite Hf. run. reflexivity.
Qed.

Lemma resume_block_frame (a : Args) (w : World) :
  let r := resume_block a w in
  files (final r) = files w /\ saves (trace r) = [] /\
  results (trace r) = [] /\ reported_best (trace r) = [].
Proof.
  cbv zeta. unfold resume_block.
  destruct (String.eqb (resume a) ""); [cbn; auto |].
  run. destruct (files w (resume a)); run; cbn; auto.
Qed.

Lemma main_after_resume (a : Args) (trainloader : Z -> list batch)
    (testloader : list batch) (w : World) (start : Z) :
  res (resume_block a w) = Ok start ->
  let r := resume_block a w in
  let o := run_from a trainloader testloader start (final r) in
  main a trainloader testloader w =
    Outcome (res o) (final o) (trace r ++ trace o).
Proof. intros H. cbv zeta. unfold main. exact (bind_ok _ _ w start H). Qed.

Lemma run_from_training (a : Args) (trainloader : Z -> list batch)
    (testloader : list batch) (start : Z) (w : World) :
  evaluate a = false ->
  let o := run_from a trainloader testloader start w in
  let ol := epoch_loop a trainloader testloader
              (Py.range2 start (epochs a)) w in
  res o = res ol /\ final o = final ol /\
  saves (trace o) = saves (trace ol) /\
  reported_best (trace o) =
    match res ol with
    | Ok _ => [best_acc (final ol)]
    | Raise _ => []
    end.
Proof.
  intros He. cbv zeta. unfold run_from. rewrite He.
  destruct (epoch_loop_monotone a trainloader testloader
              (Py.range2 start (epochs a)) w) as (_ & Hrb & _).
  cbv zeta in Hrb.
  destruct (res (epoch_loop a trainloader testloader
                   (Py.range2 start (epochs a)) w)) as [[] | ex] eqn:E.
  - rewrite (bind_ok _ _ w tt E). run.
    rewrite saves_app, reported_best_app, Hrb. cbn.
    rewrite app_nil_r. auto.
  - rewrite (bind_raise _ _ w ex E). cbn [res final trace]. auto.
Qed.

Lemma resume_block_logs (a : Args) (w : World) :
  logged_lr (trace (resume_block a w)) = [].
Proof.
  unfold resume_block.
  destruct (String.eqb (resume a) ""); [reflexivity |].
  run. destruct (files w (resume a)); run; reflexivity.
Qed.

(** A training run prints the best accuracy after the loop, and only when
    the loop has returned. *)
Lemma run_from_training_trace (a : Args) (trainloader : Z -> list batch)
    (testloader : list batch) (start : Z) (w : World) :
  evaluate a = false ->
  let o := run_from a trainloader testloader start w in
  let ol := epoch_loop a trainloader testloader
              (Py.range2 start (epochs a)) w in
  trace o =
    trace ol ++
    match res ol with
    | Ok _ => [Print "Best acc:"; PrintBest (best_acc (final ol))]
    | Raise _ => []
    end.
Proof.
  intros He. cbv zeta. unfold run_from. rewrite He.
  destruct (res (epoch_loop a trainloader testloader
                   (Py.range2 start (epochs a)) w)) as [[] | ex] eqn:E.
  - rewrite (bind_ok _ _ w tt E). run. reflexivity.
  - rewrite (bind_raise _ _ w ex E). cbn [trace]. now rewrite app_nil_r.
Qed.

(** The epochs that a run of the loop logs and saves are the first [k] of
    its epochs, in order, and all of them exactly when the loop returns. *)
Lemma epoch_loop_prefix (a : Args) (trainloader : Z -> list batch)
    (testloader : list batch) (es : list Z) :
  forall w : World,
    let o := epoch_loop a trainloader testloader es w in
    exists k : nat,
      (k <= List.length es)%nat /\
      map fst (logged_lr (trace o)) = firstn k es /\
      map (fun s => ck_epoch (fst s)) (saves (trace o)) =
        map (Z.add 1) (firstn k es) /\
      (res o = Ok tt <-> k = List.length es).
Proof.
  induction es as [| e es IH]; intros w; cbv zeta.
  - exists 0%nat. cbn. repeat split; auto.
  - destruct (epoch_loop_cons a trainloader testloader e es w)
      as [(ex & Hr & ->) | (Hr & ->)].
    + exists 0%nat. cbn [res trace firstn map List.length].
      destruct (epoch_body_cases a trainloader testloader e w)
        as [(ex' & _ & Hs & Hl & _) | (c & Hok & _)];
        [| cbv zeta in Hok; congruence].
      cbv zeta in Hs, Hl. rewrite Hs, Hl. cbn.
      repeat split; try lia; try reflexivity; intros; discriminate.
    + cbv zeta. cbn [res trace].
      destruct (epoch_body_cases a trainloader testloader e w)
        as [(ex' & Hraise & _) | (c & _ & Hs & Hc & _ & Hl & _)];
        [cbv zeta in Hraise; congruence |].
      cbv zeta in Hs, Hl.
      destruct (IH (final (epoch_body a trainloader testloader e w)))
        as (k & Hk & Il & Is & Ir).
      cbv zeta in Il, Is, Ir.
      exists (S k). rewrite saves_app, logged_lr_app, !map_app, Hs, Hl, Il, Is.
      cbn [map fst firstn app List.length]. rewrite Hc, Ir.
      repeat split; try lia.
      f_equal. lia.
Qed.

(** C4. A run that resumes from the checkpoint saved in epoch [e] restores
    the model's state, the optimizer and the best accuracy from the record
    and enters the epoch loop at epoch [e + 1].  In a training run the
    epochs logged and saved after the resume are [e + 1], [e + 2], ... in
    order: a prefix of the epochs from [e + 1] to the last one, and all of
    them exactly when the run returns; when an epoch is left, the events of
    the run after the resume begin with those of the body of epoch [e + 1]
    on the restored state.  When the record's best accuracy is [best],
    every later call of [save_checkpoint] carries a best accuracy of at
    least [best] and, at an epoch whose test accuracy is at most [best],
    the flag [is_best] false, and the best accuracy printed at the end is
    at least [best]. *)
Theorem resume_from_checkpoint (a : Args) (trainloader : Z -> list batch)
    (testloader : list batch) (e : Z) (best acc : R) (w0 w : World)
    (ck : Checkpoint) (flag : bool) (dir : string) :
  In (SaveCheckpoint ck flag dir) (trace (checkpointing e acc w0)) ->
  ck_best_acc ck = best ->
  resume a <> ""%string ->
  files w (resume a) = Some ck ->
  let r := resume_block a w in
  let o := main a trainloader testloader w in
  let o' := run_from a trainloader testloader (e + 1) (final r) in
  let todo := Py.range2 (e + 1) (epochs a) in
  res r = Ok (e + 1)%Z /\
  best_acc (final r) = best /\
  state_dict (model (final r)) = state_dict (model w0) /\
  optimizer (final r) = optimizer w0 /\
  o = Outcome (res o') (final o') (trace r ++ trace o') /\
  (evaluate a = false ->
   (exists k : nat,
      (k <= List.length todo)%nat /\
      map fst (logged_lr (trace o)) = firstn k todo /\
      map (fun s => ck_epoch (fst s)) (saves (trace o)) =
        map (Z.add 1) (firstn k todo) /\
      (res o = Ok tt <-> k = List.length todo)) /\
   ((e + 1 < epochs a)%Z ->
    exists rest,
      trace o =
        trace r ++
        trace (epoch_body a trainloader testloader (e + 1) (final r)) ++
        rest) /\
   (forall c b, In (c, b) (saves (trace o)) ->
      (e + 1 <= ck_epoch c - 1 < epochs a)%Z /\
      best <= ck_best_acc c /\
      (ck_acc c <= best -> b = false)) /\
   (forall x, In x (reported_best (trace o)) -> best <= x)).
Proof.
  intros Hin Hbest Hne Hf. cbv zeta.
  destruct (checkpointing_spec e acc w0) as (_ & Ct & _).
  cbv zeta in Ct. rewrite Ct in Hin. destruct Hin as [Heq | []].
  inversion Heq as [[Hck Hflag Hdir]]. clear Heq.
  assert (Hepoch : ck_epoch ck = (e + 1)%Z) by (now rewrite <- Hck).
  assert (Hsd : ck_state_dict ck = state_dict (model w0))
    by (now rewrite <- Hck).
  assert (Hopt : ck_optimizer ck = optimizer w0) by (now rewrite <- Hck).
  pose proof (resume_block_ok a w ck Hne Hf) as Hr.
  assert (Hres : res (resume_block a w) = Ok (e + 1)%Z).
  { rewrite Hr. cbn [res]. now rewrite Hepoch. }
  split; [exact Hres |].
  split; [rewrite Hr; exact Hbest |].
  split; [rewrite Hr; exact Hsd |].
  split; [rewrite Hr; exact Hopt |].
  split; [exact (main_after_resume a trainloader testloader w _ Hres) |].
  intros Hev.
  rewrite (main_after_resume a trainloader testloader w _ Hres).
  cbn [trace res].
  destruct (resume_block_frame a w) as (_ & Rs & _ & Rb). cbv zeta in Rs, Rb.
  pose proof (resume_block_logs a w) as Rl.
  set (w1 := final (resume_block a w)) in *.
  destruct (run_from_training a trainloader testloader (e + 1) w1 Hev)
    as (Sr & _ & Ss & Sb).
  pose proof (run_from_training_trace a trainloader testloader (e + 1) w1 Hev)
    as St.
  cbv zeta in Sr, Ss, Sb, St.
  rewrite saves_app, reported_best_app, logged_lr_app, Rs, Rb, Rl.
  cbn [app]. rewrite Ss, Sb, Sr.
  destruct (epoch_loop_monotone a trainloader testloader
              (Py.range2 (e + 1) (epochs a)) w1) as (M1 & _ & M3).
  cbv zeta in M1, M3.
  assert (Hb : best_acc w1 = best) by (unfold w1; rewrite Hr; exact Hbest).
  rewrite Hb in M1, M3. split; [| split; [| split]].
  - destruct (epoch_loop_prefix a trainloader testloader
                (Py.range2 (e + 1) (epochs a)) w1) as (k & Hk & Pl & Ps & Pr).
    cbv zeta in Pl, Ps, Pr. exists k.
    split; [exact Hk |]. split; [| split; [exact Ps | exact Pr]].
    rewrite St, logged_lr_app, map_app, Pl.
    destruct (res (epoch_loop a trainloader testloader _ w1));
      cbn; now rewrite app_nil_r.
  - intros Hlt. rewrite St. rewrite (range2_cons (e + 1) (epochs a)) by lia.
    destruct (epoch_loop_cons a trainloader testloader (e + 1)
                (Py.range2 (e + 1 + 1) (epochs a)) w1)
      as [(ex & _ & ->) | (_ & ->)]; cbv zeta; cbn [trace res].
    + exists []. reflexivity.
    + eexists. rewrite <- app_assoc. reflexivity.
  - intros c b Hcb. destruct (M3 c b Hcb) as (J1 & J2 & J3).
    apply range2_In in J1. auto.
  - intros x Hx.
    destruct (res (epoch_loop a trainloader testloader _ _)); [| destruct Hx].
    destruct Hx as [<- | []]. exact M1.
Qed.

End Resume.


Section Evaluate.

Context {B : Backend}.

Lemma compute_new_W_eq (a : Args) (w : World) :
  compute_new_W a w =
    Outcome
      (counts <- num_sample (num_classes (dataset a)) (imbalance a) ;;
       rescale (fc_weight (state_dict (model w))) counts (RS a))%result
      w [].
Proof.
  unfold compute_new_W. run.
  destruct (num_sample (num_classes (dataset a)) (imbalance a)); reflexivity.
Qed.

(** *** Evaluation only *)


(** The block when lines 237-245 return [new_W]: the weights of the model
    are replaced by [new_W] and two results are printed. *)
Lemma evaluate_block_returns (a : Args) (testloader : list batch) (w : World)
    (new_W : tensor) :
  (counts <- num_sample (num_classes (dataset a)) (imbalance a) ;;
   rescale (fc_weight (state_dict (model w))) counts (RS a))%result =
    Ok new_W ->
  let m1 := eval_mode (model w) in
  let m2 := {| state_dict :=
                 {| fc_weight := new_W;
                    others := others (state_dict (model w)) |};
               training := false |} in
  evaluate_block a testloader w =
    Outcome (Ok tt) (with_model m2 w)
      [Print evaluation_banner;
       PrintResult false
         (meter_avg (losses (meters_over m1 testloader new_meters)))
         (meter_avg (top1 (meters_over m1 testloader new_meters)));
       PrintResult true
         (meter_avg (losses (meters_over m2 testloader new_meters)))
         (meter_avg (top1 (meters_over m2 testloader new_meters)))].
Proof.
  intros Hr. cbv zeta. unfold evaluate_block. run. rewrite test_eq.
  unfold eval_mode. run.
  rewrite compute_new_W_eq. run.
  rewrite Hr. run.
  rewrite test_eq. unfold eval_mode. run. reflexivity.
Qed.

Lemma evaluate_block_ok (a : Args) (testloader : list batch) (w : World)
    (counts : list R) (new_W : tensor) :
  num_sample (num_classes (dataset a)) (imbalance a) = Ok counts ->
  rescale (fc_weight (state_dict (model w))) counts (RS a) = Ok new_W ->
  let m1 := eval_mode (model w) in
  let m2 := {| state_dict :=
                 {| fc_weight := new_W;
                    others := others (state_dict (model w)) |};
               training := false |} in
  evaluate_block a testloader w =
    Outcome (Ok tt) (with_model m2 w)
      [Print evaluation_banner;
       PrintResult false
         (meter_avg (losses (meters_over m1 testloader new_meters)))
         (meter_avg (top1 (meters_over m1 testloader new_meters)));
       PrintResult true
         (meter_avg (losses (meters_over m2 testloader new_meters)))
         (meter_avg (top1 (meters_over m2 testloader new_meters)))].
Proof.
  intros Hc Hr. apply evaluate_block_returns. now rewrite Hc.
Qed.





(** C6. Lines 234-245 compute [new_W] out of place: the world, and with it
    the weights that were read, is unchanged and nothing is printed; the
    value is determined by the weights, the profile and the strength, and
    for weights with one row per class it has the shape of the weights.
    Lines 247-248 then load [new_W] into the model: after the block the
    classifier's weights are [new_W], the other entries of the state are
    as they were, and a second computation of lines 234-245 works on the
    rescaled weights. *)
Theorem rescaling_then_load :
  (forall (a : Args) (w : World),
      let o := compute_new_W a w in
      final o = w /\
      trace o = [] /\
      res o =
        (counts <- num_sample (num_classes (dataset a)) (imbalance a) ;;
         rescale (fc_weight (state_dict (model w))) counts (RS a))%result) /\
  (forall (W : tensor) (counts : list R) (p : R) (new_W : tensor),
      List.length W = List.length counts ->
      rescale W counts p = Ok new_W ->
      shape new_W = shape W) /\
  (forall (a : Args) (testloader : list batch) (w : World)
          (counts : list R) (new_W : tensor),
      num_sample (num_classes (dataset a)) (imbalance a) = Ok counts ->
      rescale (fc_weight (state_dict (model w))) counts (RS a) = Ok new_W ->
      let o := evaluate_block a testloader w in
      res o = Ok tt /\
      fc_weight (state_dict (model (final o))) = new_W /\
      others (state_dict (model (final o))) = others (state_dict (model w)) /\
      res (compute_new_W a (final o)) = rescale new_W counts (RS a)).
Proof.
  split; [| split].
  - intros a w. cbv zeta. rewrite !compute_new_W_eq. cbn [res final trace].
    auto.
  - exact rescale_same_shape.
  - intros a testloader w counts new_W Hc Hr. cbv zeta.
    rewrite (evaluate_block_ok a testloader w counts new_W Hc Hr).
    cbn [res final]. rewrite compute_new_W_eq. cbn [res].
    unfold with_model. cbn [model state_dict fc_weight others].
    rewrite Hc. cbn [rbind]. auto.
Qed.

(** [main] in evaluation-only mode, once the resume block has returned. *)
Lemma main_evaluate (a : Args) (trainloader : Z -> list batch)
    (testloader : list batch) (w : World) (start : Z) :
  evaluate a = true ->
  res (resume_block a w) = Ok start ->
  let r := resume_block a w in
  let ob := evaluate_block a testloader (final r) in
  main a trainloader testloader w =
    Outcome (res ob) (final ob) (trace r ++ trace ob).
Proof.
  intros Hev Hres. cbv zeta.
  rewrite (main_after_resume a trainloader testloader w start Hres).
  unfold run_from. now rewrite Hev.
Qed.


End Evaluate.

(** *** The example: ten classes, imbalance 100, strength 1 *)

Lemma hundredth : Rpower (IZR 100) (- (1)) = / 100.
Proof. rewrite Rpower_Ropp, Rpower_1 by lra. reflexivity. Qed.

Lemma hundredth_in_range : f32_underflow < / 100 < 1.
Proof.
  split; [| lra]. unfold f32_underflow. apply Rinv_lt_contravar.
  - rewrite <- mult_IZR. apply IZR_lt. reflexivity.
  - apply IZR_lt. reflexivity.
Qed.

Lemma example_weight_bound : 10000 < f32_overflow.
Proof. unfold f32_overflow. apply IZR_lt. reflexivity. Qed.

(** The rescaling multiplies a weight of class 9 by 100. *)
Lemma example_rescale (W : tensor) (x y : R) :
  List.length W = 10%nat -> nth_error W 9 = Some [Fin x] ->
  1 <= x <= 100 -> y = 100 * x ->
  exists new_W,
    rescale W (map (exponential_count 10 100) (Py.range 10)) 1 = Ok new_W /\
    nth_error new_W 9 = Some [Fin y] /\
    List.length new_W = 10%nat.
Proof.
  intros HW Hrow Hx ->.
  pose proof float_range as [[U0 U1] O1].
  pose proof f32_range as [[V0 V1] P1].
  pose proof f32_within_float as [UU OO].
  pose proof hundredth_in_range as [Hl Hu].
  pose proof example_weight_bound as Hb.
  assert (Hs : strengthened 1 (map (spec_norm 10 100) (Py.range 10)) =
               Ok (map (spec_scale 10 100 1) (Py.range 10))).
  { apply strengthened_closed_form; [lia | lia |]. rewrite hundredth. lra. }
  eexists. split; [| split].
  - apply (rescale_profile 10 100 1 _ W ltac:(lia) ltac:(lia) Hs);
      [reflexivity | exact HW].
  - change 9%nat with (Z.to_nat (10 - 1)).
    erewrite div_rows_nth; [| exact Hrow |].
    2:{ apply FloatTensor_nth. rewrite nth_error_map, range_nth by lia.
        reflexivity. }
    rewrite spec_scale_last, hundredth by lia.
    rewrite to_float32_exact by lra.
    cbn [div_row map]. rewrite tdiv_fin by lra.
    replace (x / / 100) with (100 * x) by (field; lra).
    rewrite f32_quotient_exact; [reflexivity |].
    rewrite Rabs_pos_eq by lra. lra.
  - rewrite div_rows_length; [exact HW |]. now rewrite HW.
Qed.

Lemma example_resume_skipped (a : Args) (w : @World unit_backend) :
  resume a = ""%string ->
  resume_block (B := unit_backend) a w = Outcome (Ok (start_epoch a)) w [].
Proof. intros E. unfold resume_block. now rewrite E. Qed.

(** C6, as stated, fails over lines 242-248: the weights that the rescaling
    read are overwritten by its result.  In the evaluation-only run of the
    example the weight of class 9 is 1 before the run and 100 after it; the
    computation of lines 234-245 gives 100 for that weight before the run
    and 10000 after it. *)
Lemma rescaling_overwrites_classifier :
  nth_error (fc_weight (state_dict (model example_world))) 9 =
    Some [Fin 1] /\
  res (main (B := unit_backend) evaluate_args (fun _ => []) [unit_batch]
         example_world) = Ok tt /\
  nth_error
    (fc_weight
       (state_dict
          (model
             (final (main (B := unit_backend) evaluate_args (fun _ => [])
                       [unit_batch] example_world))))) 9 =
    Some [Fin 100] /\
  (exists W1,
      res (compute_new_W (B := unit_backend) evaluate_args example_world) =
        Ok W1 /\
      nth_error W1 9 = Some [Fin 100]) /\
  (exists W2,
      res (compute_new_W (B := unit_backend) evaluate_args
             (final (main (B := unit_backend) evaluate_args (fun _ => [])
                       [unit_batch] example_world))) = Ok W2 /\
      nth_error W2 9 = Some [Fin 10000]).
Proof.
  destruct (example_rescale (repeat [Fin 1] 10) 1 100 eq_refl eq_refl)
    as (W1 & H1 & N1 & L1); [lra | lra |].
  destruct (example_rescale W1 100 10000 L1 N1) as (W2 & H2 & N2 & _);
    [lra | lra |].
  assert (Hc : num_sample 10 100 =
               Ok (map (exponential_count 10 100) (Py.range 10)))
    by (apply num_sample_closed_form; lia).
  pose proof (main_evaluate (B := unit_backend) evaluate_args (fun _ => [])
                [unit_batch] example_world 0%Z eq_refl eq_refl) as Hm.
  cbv zeta in Hm.
  rewrite (example_resume_skipped evaluate_args example_world eq_refl) in Hm.
  cbn [final trace app] in Hm.
  rewrite (evaluate_block_ok (B := unit_backend) evaluate_args [unit_batch]
             example_world _ W1 Hc H1) in Hm.
  cbn [res final] in Hm. rewrite Hm. cbn [res final].
  split; [reflexivity |]. split; [reflexivity |]. split; [exact N1 |].
  split.
  - exists W1. rewrite compute_new_W_eq. cbn [res].
    change (num_classes (dataset evaluate_args)) with 10%Z.
    change (imbalance evaluate_args) with 100%Z.
    rewrite Hc. cbn [rbind]. split; [exact H1 | exact N1].
  - exists W2. rewrite compute_new_W_eq. cbn [res].
    change (num_classes (dataset evaluate_args)) with 10%Z.
    change (imbalance evaluate_args) with 100%Z.
    rewrite Hc. cbn [rbind]. split; [exact H2 | exact N2].
Qed.

Lemma rescaling_then_load_witness :
  exists counts new_W,
    num_sample 10 100 = Ok counts /\
    rescale (repeat [Fin 1] 10) counts 1 = Ok new_W /\
    res (evaluate_block (B := unit_backend) evaluate_args [unit_batch]
           example_world) = Ok tt /\
    fc_weight
      (state_dict
         (model
            (final (evaluate_block (B := unit_backend) evaluate_args
                      [unit_batch] example_world)))) = new_W.
Proof.
  destruct (example_rescale (repeat [Fin 1] 10) 1 100 eq_refl eq_refl)
    as (W1 & H1 & _); [lra | lra |].
  exists (map (exponential_count 10 100) (Py.range 10)), W1.
  assert (Hc : num_sample 10 100 =
               Ok (map (exponential_count 10 100) (Py.range 10)))
    by (apply num_sample_closed_form; lia).
  destruct (proj2 (proj2 (rescaling_then_load (B := unit_backend)))
              evaluate_args [unit_batch] example_world _ W1 Hc H1)
    as (R1 & R2 & _).
  split; [exact Hc |]. split; [exact H1 |]. split; [exact R1 | exact R2].
Defined.



(** * Further properties of the script *)

(** ** The progress lines of [train] *)

Lemma div_succ (i d : Z) :
  (0 < d)%Z ->
  ((i + 1) mod d = 0 -> (i + 1) / d = i / d + 1)%Z /\
  ((i + 1) mod d <> 0 -> (i + 1) / d = i / d)%Z.
Proof.
  intros Hd.
  pose proof (Z.div_mod i d ltac:(lia)) as Hi.
  pose proof (Z.mod_pos_bound i d Hd) as Hr.
  destruct (Z.eq_dec (i mod d + 1) d) as [E | N].
  - assert (H1 : (i + 1 = d * (i / d + 1) + 0)%Z) by lia.
    assert (Hdiv : ((i + 1) / d = i / d + 1)%Z)
      by (symmetry; apply (Z.div_unique _ _ _ 0); [lia | exact H1]).
    assert (Hmod : ((i + 1) mod d = 0)%Z)
      by (symmetry; apply (Z.mod_unique _ _ (i / d + 1)); [lia | exact H1]).
    split; intros H; [exact Hdiv | contradiction].
  - assert (H1 : (i + 1 = d * (i / d) + (i mod d + 1))%Z) by lia.
    assert (Hdiv : ((i + 1) / d = i / d)%Z)
      by (symmetry; apply (Z.div_unique _ _ _ (i mod d + 1)); [lia | exact H1]).
    assert (Hmod : ((i + 1) mod d = i mod d + 1)%Z)
      by (symmetry; apply (Z.mod_unique _ _ (i / d)); [lia | exact H1]).
    split; intros H; [lia | exact Hdiv].
Qed.

Section TrainProgress.

Context {B : Backend}.

Lemma progress_percents_app (t1 t2 : list event) :
  progress_percents (t1 ++ t2) = progress_percents t1 ++ progress_percents t2.
Proof. unfold progress_percents. apply flat_map_app. Qed.

Lemma train_loop_progress (epoch denom : Z) (per : R) (bs : list batch) :
  (0 < denom)%Z ->
  forall (i : Z) (ms : Meters) (w : World),
    (0 <= i)%Z ->
    let o := train_loop epoch denom per i bs ms w in
    (exists ms', res o = Ok ms') /\
    progress_percents (trace o) =
      map (fun k => per * IZR k)
          (Py.range2 (i / denom + 1)
                     ((i + Z.of_nat (List.length bs)) / denom + 1)).
Proof.
  intros Hd. induction bs as [| b bs IH]; intros i ms w Hi; cbv zeta.
  - cbn [train_loop List.length]. rewrite Z.add_0_r.
    rewrite range2_empty by lia. cbn. eauto.
  - cbn [train_loop].
    pose proof (train_batch_eq epoch denom per ms i b w) as Hb.
    cbv zeta in Hb.
    destruct (Z.eqb_spec denom 0) as [E | _]; [lia |].
    rewrite (bind_ok _ _ w _ (f_equal res Hb)). rewrite Hb.
    cbn [res final trace].
    match goal with
    | |- context [train_loop epoch denom per (i + 1) bs ?ms1 ?w1] =>
        destruct (IH (i + 1)%Z ms1 w1 ltac:(lia)) as [I1 I2]
    end.
    cbv zeta in I1, I2. split; [exact I1 |].
    rewrite progress_percents_app, I2.
    replace (i + Z.of_nat (List.length (b :: bs)))%Z
      with (i + 1 + Z.of_nat (List.length bs))%Z
      by (cbn [List.length]; lia).
    destruct (div_succ i denom Hd) as [D1 D2].
    assert (Hmono : ((i + 1) / denom <=
                     (i + 1 + Z.of_nat (List.length bs)) / denom)%Z)
      by (apply Z.div_le_mono; lia).
    destruct (Z.eqb_spec ((i + 1) mod denom) 0) as [E | N].
    + rewrite (D1 E) in *. cbn [progress_percents flat_map app].
      rewrite (range2_cons (i / denom + 1)) by lia. reflexivity.
    + rewrite (D2 N) in *. reflexivity.
Qed.

Lemma long_loader_completes (trainloader : list batch) (epoch : Z)
    (w : World) :
  (13 <= List.length trainloader)%nat ->
  let o := train trainloader epoch w in
  let max_iter := Z.of_nat (List.length trainloader) in
  let denom := (max_iter / num_print)%Z in
  (exists r, res o = Ok r) /\
  progress_percents (trace o) =
    map (fun k => 1 / IZR num_print * 100 * IZR k)
        (Py.range2 1 (max_iter / denom + 1)) /\
  (13 <= max_iter / denom)%Z /\
  Forall progress_event (trace o).
Proof.
  intros Hlen. cbv zeta.
  set (n := Z.of_nat (List.length trainloader)).
  set (d := (n / num_print)%Z).
  assert (Hn : (13 <= n)%Z) by (unfold n; lia).
  assert (Hd : (0 < d)%Z).
  { unfold d, num_print. apply Z.div_str_pos. lia. }
  assert (H13 : (13 <= n / d)%Z).
  { apply Z.div_le_lower_bound; [assumption |].
    unfold d, num_print.
    pose proof (Z.mul_div_le n 13 ltac:(lia)). lia. }
  destruct (train_frame trainloader epoch w) as [_ Hp]. cbv zeta in Hp.
  split; [| split; [| split; [exact H13 | exact Hp]]].
  - unfold train.
    rewrite (bind_ok (model_set_mode true) _ w tt) by reflexivity.
    cbn [res]. fold n. fold d.
    destruct (train_loop_progress epoch d (1 / IZR num_print * 100)
                trainloader Hd 0%Z new_meters
                (final (model_set_mode true w)) ltac:(lia))
      as [[ms' E] _].
    rewrite (bind_ok _ _ _ ms' E). unfold ret. cbn [res]. eauto.
  - unfold train.
    rewrite (bind_ok (model_set_mode true) _ w tt) by reflexivity.
    cbn [trace]. fold n. fold d.
    destruct (train_loop_progress epoch d (1 / IZR num_print * 100)
                trainloader Hd 0%Z new_meters
                (final (model_set_mode true w)) ltac:(lia))
      as [[ms' E] Hperc].
    cbv zeta in Hperc.
    rewrite (bind_ok _ _ _ ms' E). unfold ret. cbn [trace].
    change (trace (model_set_mode true w)) with (@nil event).
    rewrite !progress_percents_app, Hperc. cbn [progress_percents flat_map app].
    rewrite app_nil_r. rewrite Z.div_0_l by lia. reflexivity.
Qed.

(** X1. For a training loader of at least 13 batches [train] returns
    normally, and its progress lines show the percentages
    [k * (1/13*100)] for [k = 1 .. max_iter // denom]; there are at least 13
    of them. *)
Theorem train_long_loader_progress (trainloader : list batch) (epoch : Z)
    (w : World) :
  (13 <= List.length trainloader)%nat ->
  let o := train trainloader epoch w in
  let max_iter := Z.of_nat (List.length trainloader) in
  let denom := (max_iter / num_print)%Z in
  (exists r, res o = Ok r) /\
  progress_percents (trace o) =
    map (fun k => 1 / IZR num_print * 100 * IZR k)
        (Py.range2 1 (max_iter / denom + 1)) /\
  (13 <= max_iter / denom)%Z /\
  Forall progress_event (trace o).
Proof. exact (long_loader_completes trainloader epoch w). Qed.

Lemma train_empty_loader (epoch : Z) (w : World) :
  train [] epoch w =
    Outcome (Ok (0, 0)) (with_model (train_mode (model w)) w) [].
Proof. reflexivity. Qed.

Lemma short_loader_division_error (trainloader : list batch) (epoch : Z) (w : World) :
  (1 <= List.length trainloader < 13)%nat ->
  res (train trainloader epoch w) = Raise ZeroDivisionError.
Proof.
  intros Hlen.
  assert (Hd : (Z.of_nat (List.length trainloader) / num_print = 0)%Z).
  { apply Z.div_small. unfold num_print. lia. }
  destruct trainloader as [| b rest]; [cbn in Hlen; lia |].
  unfold train.
  rewrite (bind_ok (model_set_mode true) _ w tt) by reflexivity.
  rewrite Hd. cbn [res].
  set (w1 := final (model_set_mode true w)).
  assert (Hloop : forall per ms,
            res (train_loop epoch 0 per 0 (b :: rest) ms w1) =
              Raise ZeroDivisionError).
  { intros per ms. cbn [train_loop].
    rewrite (bind_raise _ _ _ ZeroDivisionError);
      [reflexivity | rewrite train_batch_eq; reflexivity]. }
  rewrite (bind_raise _ _ w1 ZeroDivisionError) by apply Hloop.
  reflexivity.
Qed.

(** X2. [train] returns normally exactly when the loader is empty or has at
    least 13 batches: on the empty loader the loop body, and with it the
    division by [denom = 0], is never reached and the result is [(0, 0)];
    from 1 to 12 batches it raises. *)
Theorem train_returns_iff (trainloader : list batch) (epoch : Z) (w : World) :
  ((exists r, res (train trainloader epoch w) = Ok r) <->
   (List.length trainloader = 0 \/ 13 <= List.length trainloader)%nat) /\
  res (train [] epoch w) = Ok (0, 0).
Proof.
  split; [| reflexivity]. split.
  - intros [r Hr].
    destruct (Nat.eq_dec (List.length trainloader) 0) as [E | N]; [now left |].
    destruct (Nat.le_gt_cases 13 (List.length trainloader)) as [L | G];
      [now right |].
    rewrite short_loader_division_error in Hr by lia. discriminate.
  - intros [E | L].
    + destruct trainloader; [| discriminate].
      rewrite train_empty_loader. cbn [res]. eauto.
    + now destruct (long_loader_completes trainloader epoch w L)
        as [H _].
Qed.

(** X3. [test] can be repeated: a second run, directly after the first,
    returns the same result and leaves the same world, and the result does
    not depend on the mode the model was in before. *)
Theorem test_repeatable (testloader : list batch) (w : World) :
  test testloader (final (test testloader w)) = test testloader w /\
  bind (test testloader) (fun _ => test testloader) w = test testloader w /\
  res (test testloader (with_model (train_mode (model w)) w)) =
    res (test testloader w).
Proof.
  split; [| split].
  - rewrite !test_eq. reflexivity.
  - unfold bind. rewrite (test_eq testloader w). cbv beta iota.
    rewrite !test_eq. reflexivity.
  - rewrite !test_eq. reflexivity.
Qed.

End TrainProgress.

Lemma train_long_loader_progress_witness :
  progress_percents
    (trace (train (B := unit_backend) (repeat unit_batch 25) 0 example_world)) =
    map (fun k => 1 / IZR num_print * 100 * IZR k)
        (Py.range2 1 (Z.of_nat 25 / (Z.of_nat 25 / num_print) + 1)) /\
  (13 <= Z.of_nat 25 / (Z.of_nat 25 / num_print))%Z.
Proof.
  destruct (train_long_loader_progress (B := unit_backend)
              (repeat unit_batch 25) 0%Z example_world) as (_ & H2 & H3 & _).
  - cbn. lia.
  - split; [exact H2 | exact H3].
Defined.

(** ** The checkpoint files *)

Section CheckpointFiles.

Context {B : Backend}.

Lemma save_checkpoint_spec (state : Checkpoint) (is_best : bool)
    (dir : string) (w : World) :
  let o := save_checkpoint state is_best dir w in
  res o = Ok tt /\
  trace o = [SaveCheckpoint state is_best dir] /\
  files (final o) (latest_path dir) = Some state /\
  (is_best = true -> files (final o) (best_path dir) = Some state) /\
  (is_best = false -> best_path dir <> latest_path dir ->
   files (final o) (best_path dir) = files w (best_path dir)) /\
  (forall p, p <> latest_path dir -> p <> best_path dir ->
             files (final o) p = files w p) /\
  best_acc (final o) = best_acc w /\
  state_lr (final o) = state_lr w /\
  args_checkpoint (final o) = args_checkpoint w /\
  model (final o) = model w /\
  optimizer (final o) = optimizer w.
Proof.
  cbv zeta. unfold save_checkpoint, latest_path, best_path. run.
  destruct is_best; run; unfold write_file; rewrite ?String.eqb_refl;
    (split; [reflexivity |]); (split; [reflexivity |]).
  - split; [destruct (String.eqb _ _); reflexivity |].
    split; [reflexivity |]. split; [discriminate |].
    split; [| auto 10].
    intros p H1 H2.
    destruct (String.eqb_spec p (path_join dir best_name)); [contradiction |].
    destruct (String.eqb_spec p (path_join dir checkpoint_name));
      [contradiction | reflexivity].
  - split; [reflexivity |]. split; [discriminate |].
    split.
    + intros _ Hne.
      destruct (String.eqb_spec (path_join dir best_name)
                  (path_join dir checkpoint_name));
        [contradiction | reflexivity].
    + split; [| auto 10]. intros p H1 H2.
      destruct (String.eqb_spec p (path_join dir checkpoint_name));
        [contradiction | reflexivity].
Qed.

(** X4. [save_checkpoint] writes the record to the checkpoint file of the
    directory and, when [is_best] holds, to the best file as well; when
    [is_best] does not hold the best file keeps its content; no other file
    and no other part of the world is written. *)
Theorem save_checkpoint_files (state : Checkpoint) (is_best : bool)
    (dir : string) (w : World) :
  let o := save_checkpoint state is_best dir w in
  res o = Ok tt /\
  trace o = [SaveCheckpoint state is_best dir] /\
  files (final o) (latest_path dir) = Some state /\
  (is_best = true -> files (final o) (best_path dir) = Some state) /\
  (is_best = false -> best_path dir <> latest_path dir ->
   files (final o) (best_path dir) = files w (best_path dir)) /\
  (forall p, p <> latest_path dir -> p <> best_path dir ->
             files (final o) p = files w p) /\
  best_acc (final o) = best_acc w /\
  state_lr (final o) = state_lr w /\
  args_checkpoint (final o) = args_checkpoint w /\
  model (final o) = model w /\
  optimizer (final o) = optimizer w.
Proof. exact (save_checkpoint_spec state is_best dir w). Qed.

Lemma checkpointing_files (e : Z) (acc : R) (w : World) :
  let o := checkpointing e acc w in
  let dir := args_checkpoint w in
  (Py.gt acc (best_acc w) = true ->
   exists c, files (final o) (best_path dir) = Some c /\
             ck_acc c = acc /\ ck_best_acc c = Py.max2 acc (best_acc w)) /\
  (Py.gt acc (best_acc w) = false -> best_path dir <> latest_path dir ->
   files (final o) (best_path dir) = files w (best_path dir)).
Proof.
  cbv zeta. unfold checkpointing. run.
  match goal with
  | |- context [save_checkpoint ?st ?b ?d ?w'] =>
      destruct (save_checkpoint_spec st b d w')
        as (_ & _ & _ & Hb & Hn & _);
      cbv zeta in Hb, Hn;
      rewrite (outcome_eta (save_checkpoint st b d w'))
  end.
  cbn [final]. split.
  - intros Hgt. eexists. split; [apply Hb; exact Hgt |]. split; reflexivity.
  - intros Hgt Hne. now apply Hn.
Qed.

Lemma epoch_body_res (a : Args) (trainloader : Z -> list batch)
    (testloader : list batch) (e : Z) (w : World) :
  res (epoch_body a trainloader testloader e w) =
    match res (train (trainloader e) e
                 (final (adjust_learning_rate a e w))) with
    | Ok _ => Ok tt
    | Raise ex => Raise ex
    end.
Proof.
  unfold epoch_body.
  destruct (adjust_total a e w) as (Ar & _). cbv zeta in Ar.
  rewrite (bind_ok _ _ w tt Ar). cbn [res].
  destruct (res (train (trainloader e) e
                   (final (adjust_learning_rate a e w)))) as [tr | ex] eqn:Tr.
  - rewrite (bind_ok _ _ _ tr Tr). cbn [res].
    run. rewrite test_eq. run.
    match goal with
    | |- context [checkpointing e ?x ?w3] =>
        rewrite (checkpointing_eq e x w3)
    end.
    reflexivity.
  - rewrite (bind_raise _ _ _ ex Tr). reflexivity.
Qed.

Lemma epoch_body_world (a : Args) (trainloader : Z -> list batch)
    (testloader : list batch) (e : Z) (w : World) :
  let o := epoch_body a trainloader testloader e w in
  (exists ex,
      res o = Raise ex /\
      best_acc (final o) = best_acc w /\
      args_checkpoint (final o) = args_checkpoint w /\
      files (final o) = files w /\
      saves (trace o) = []) \/
  (exists acc w3,
      res o = Ok tt /\
      best_acc w3 = best_acc w /\
      args_checkpoint w3 = args_checkpoint w /\
      files w3 = files w /\
      final o = final (checkpointing e acc w3) /\
      saves (trace o) = saves (trace (checkpointing e acc w3))).
Proof.
  cbv zeta. unfold epoch_body.
  destruct (adjust_total a e w) as (Ar & At & Ab & Ac & Af & Am).
  cbv zeta in Ar, At, Ab, Ac, Af, Am.
  rewrite (bind_ok _ _ w tt) by exact Ar. rewrite At.
  set (w1 := final (adjust_learning_rate a e w)) in *.
  destruct (train_frame (trainloader e) e w1) as [Tf Tp]. cbv zeta in Tf, Tp.
  destruct (progress_only _ Tp) as (Ts & _).
  unfold same_bookkeeping in Tf. destruct Tf as (T1 & T2 & T3 & T4 & T5).
  destruct (res (train (trainloader e) e w1)) as [tr | ex] eqn:Tr.
  - right.
    rewrite (bind_ok _ _ w1 tr) by exact Tr.
    set (w2 := final (train (trainloader e) e w1)) in *.
    cbv beta. run. rewrite test_eq. run.
    match goal with
    | |- context [checkpointing e ?x ?w3] =>
        exists x, w3;
        rewrite (outcome_eta (checkpointing e x w3));
        destruct (checkpointing_spec e x w3) as (Cr & _);
        cbv zeta in Cr; rewrite Cr
    end.
    cbn [res final trace best_acc args_checkpoint files with_model].
    rewrite !saves_app, Ts. cbn [saves flat_map app].
    split; [reflexivity |]. split; [congruence |]. split; [congruence |].
    split; [congruence |]. split; reflexivity.
  - left. exists ex.
    rewrite (bind_raise _ _ w1 ex) by exact Tr.
    cbn [res final trace app]. rewrite Ts.
    split; [reflexivity |]. split; [congruence |]. split; [congruence |].
    split; [congruence | reflexivity].
Qed.

(** X5. When the best file and the checkpoint file of the directory are
    different files, the epoch loop keeps the best file current: if it held
    a record of the best accuracy before the loop, or some epoch of the loop
    was flagged best, then after the loop (also one that ends in an
    exception) it holds a record whose accuracy and best accuracy are the
    final [best_acc]. *)
Theorem best_file_follows_best_acc (a : Args) (trainloader : Z -> list batch)
    (testloader : list batch) (es : list Z) (w : World) :
  best_path (args_checkpoint w) <> latest_path (args_checkpoint w) ->
  let o := epoch_loop a trainloader testloader es w in
  best_file_current w \/ existsb snd (saves (trace o)) = true ->
  best_file_current (final o).
Proof.
  revert w. induction es as [| e es IH]; intros w Hne; cbv zeta.
  - cbn. intros [H | H]; [exact H | discriminate].
  - destruct (epoch_loop_cons a trainloader testloader e es w)
      as [(ex & Hr & ->) | (Hr & ->)];
      destruct (epoch_body_world a trainloader testloader e w)
        as [(ex' & Br & Bb & Ba & Bf & Bs)
           | (acc & w3 & Br & Wb & Wa & Wf & Bfin & Bs)];
      cbv zeta in *; try congruence; cbn [res final trace].
    + rewrite Bs. cbn [existsb]. intros [H | H]; [| discriminate].
      unfold best_file_current in *. rewrite Ba, Bf, Bb. exact H.
    + destruct (checkpointing_spec e acc w3)
        as (_ & Ct & Cb & _ & _ & _ & Ca & _).
      cbv zeta in Ct, Cb, Ca.
      destruct (checkpointing_files e acc w3) as [Fb Fn].
      cbv zeta in Fb, Fn.
      set (ob := epoch_body a trainloader testloader e w) in *.
      assert (Hargs : args_checkpoint (final ob) = args_checkpoint w)
        by (rewrite Bfin, Ca; exact Wa).
      intros Hpre. apply IH; [rewrite Hargs; exact Hne |].
      rewrite saves_app, Bs, Ct in Hpre.
      cbn [saves flat_map app existsb snd] in Hpre.
      destruct (Py.gt acc (best_acc w3)) eqn:G.
      * left. destruct (Fb eq_refl) as (c & Hc & Hacc & Hbest).
        exists c. rewrite Hargs, Bfin, Cb, <- Wa.
        split; [exact Hc |]. split; [| exact Hbest].
        rewrite Hacc. apply gt_true_iff in G.
        unfold Py.max2. destruct (Rlt_dec acc (best_acc w3)); [lra | reflexivity].
      * cbn [orb] in Hpre. destruct Hpre as [H | H]; [| now right].
        left. destruct H as (c & Hc & Hacc & Hbest).
        assert (Hkeep : Py.max2 acc (best_acc w3) = best_acc w).
        { apply gt_false_iff in G. rewrite Wb in *. unfold Py.max2.
          destruct (Rlt_dec acc (best_acc w)); [reflexivity | lra]. }
        exists c. rewrite Hargs, Bfin, Cb, Hkeep.
        split; [| split; assumption].
        rewrite <- Wa, Fn; [| reflexivity | rewrite Wa; exact Hne].
        rewrite Wa, Wf. exact Hc.
Qed.

End CheckpointFiles.

Lemma best_file_follows_best_acc_witness :
  best_file_current
    (final (epoch_loop (B := unit_backend) example_args (fun _ => []) []
              [0%Z] example_world_with_best)).
Proof.
  apply (best_file_follows_best_acc (B := unit_backend) example_args
           (fun _ => []) [] [0%Z] example_world_with_best).
  - cbn. discriminate.
  - left. exists example_checkpoint. repeat split; reflexivity.
Defined.

(** ** Runs of [main] *)

Section Runs.

Context {B : Backend}.

Lemma final_best_spec (accs : list R) :
  forall b : R,
    b <= final_best b accs /\
    (forall x, In x accs -> x <= final_best b accs) /\
    (final_best b accs = b \/ In (final_best b accs) accs).
Proof.
  induction accs as [| acc accs IH]; intros b.
  - cbn. split; [lra |]. split; [intros x [] | now left].
  - cbn [final_best fold_left].
    destruct (IH (Py.max2 acc b)) as (I1 & I2 & I3).
    unfold final_best in *.
    assert (Hb : b <= Py.max2 acc b) by (rewrite max2_Rmax; apply Rmax_r).
    assert (Ha : acc <= Py.max2 acc b) by (rewrite max2_Rmax; apply Rmax_l).
    split; [lra |]. split.
    + intros x [<- | Hx]; [lra | now apply I2].
    + destruct I3 as [E | Hin]; [| right; now right].
      rewrite E. unfold Py.max2. destruct (Rlt_dec acc b); [now left |].
      right. now left.
Qed.

(** X6. The best accuracy at the end of the epoch loop is the greatest of
    the best accuracy before it and the test accuracies of its epochs: it is
    at least each of them and equal to one of them. *)
Theorem final_best_acc_is_maximum (a : Args) (trainloader : Z -> list batch)
    (testloader : list batch) (es : list Z) (w : World) :
  let o := epoch_loop a trainloader testloader es w in
  let accs := map (fun s => ck_acc (fst s)) (saves (trace o)) in
  best_acc w <= best_acc (final o) /\
  (forall x, In x accs -> x <= best_acc (final o)) /\
  (best_acc (final o) = best_acc w \/ In (best_acc (final o)) accs).
Proof.
  cbv zeta.
  destruct (epoch_loop_tracking a trainloader testloader es w) as [_ H].
  cbv zeta in H. rewrite H. apply final_best_spec.
Qed.

Lemma epoch_loop_last (a : Args) (trainloader : Z -> list batch)
    (testloader : list batch) (e : Z) (es : list Z) :
  forall w : World,
    let o := epoch_loop a trainloader testloader (es ++ [e]) w in
    res o = Ok tt ->
    args_checkpoint (final o) = args_checkpoint w /\
    exists c,
      files (final o) (latest_path (args_checkpoint w)) = Some c /\
      ck_epoch c = (e + 1)%Z /\
      ck_state_dict c = state_dict (model (final o)) /\
      ck_optimizer c = optimizer (final o) /\
      ck_best_acc c = best_acc (final o).
Proof.
  induction es as [| x es IH]; intros w; cbv zeta.
  - cbn [app].
    destruct (epoch_loop_cons a trainloader testloader e [] w)
      as [(ex & Hr & ->) | (Hr & ->)]; cbn [res final trace epoch_loop];
      [discriminate |].
    intros _. unfold ret. cbn [final].
    destruct (epoch_body_world a trainloader testloader e w)
      as [(ex' & Br & _) | (acc & w3 & _ & Wb & Wa & Wf & Bfin & _)];
      cbv zeta in *; [congruence |].
    destruct (checkpointing_spec e acc w3)
      as (_ & _ & Cb & _ & Cm & Co & Ca & Cf).
    cbv zeta in Cb, Cm, Co, Ca, Cf.
    rewrite Bfin, Ca. split; [exact Wa |].
    eexists. unfold latest_path. rewrite <- Wa. split; [exact Cf |].
    cbn [ck_epoch ck_state_dict ck_optimizer ck_best_acc].
    rewrite Cb, Cm, Co. auto.
  - cbn [app].
    destruct (epoch_loop_cons a trainloader testloader x (es ++ [e]) w)
      as [(ex & Hr & ->) | (Hr & ->)]; cbn [res final trace];
      [discriminate |].
    intros Hok.
    destruct (epoch_body_cases a trainloader testloader x w)
      as [(ex' & Br & _) | (c0 & _ & _ & _ & _ & _ & _ & _ & _ & Ba & _)];
      cbv zeta in *; [congruence |].
    destruct (IH _ Hok) as (I1 & c & I2). rewrite Ba in I1, I2.
    split; [exact I1 |]. exists c. exact I2.
Qed.

(** X7. After a completed run of the epoch loop, the checkpoint file of the
    directory holds the record of the last epoch, which carries the final
    state of the model, the final optimizer and the final best accuracy; a
    run that resumes from that file starts at the epoch after the last one
    with that state, that optimizer and that best accuracy. *)
Theorem resume_continues_completed_run (a a' : Args)
    (trainloader : Z -> list batch) (testloader : list batch)
    (es : list Z) (e : Z) (w w' : World) :
  let o := epoch_loop a trainloader testloader (es ++ [e]) w in
  res o = Ok tt ->
  resume a' = latest_path (args_checkpoint w) ->
  resume a' <> ""%string ->
  files w' = files (final o) ->
  let r := resume_block a' w' in
  res r = Ok (e + 1)%Z /\
  state_dict (model (final r)) = state_dict (model (final o)) /\
  optimizer (final r) = optimizer (final o) /\
  best_acc (final r) = best_acc (final o) /\
  files (final r) = files (final o).
Proof.
  cbv zeta. intros Hok Hres Hne Hfiles.
  destruct (epoch_loop_last a trainloader testloader e es w Hok)
    as (_ & c & Hc & He & Hsd & Hopt & Hbest).
  assert (Hf : files w' (resume a') = Some c)
    by (rewrite Hfiles, Hres; exact Hc).
  rewrite (resume_block_ok a' w' c Hne Hf). cbn.
  rewrite He, Hsd, Hopt, Hbest. auto.
Qed.

(** X8. A resume path that names no file makes the resume block, and
    [main] with it, raise [AssertionError] after the two lines it prints:
    the world is unchanged, so nothing is loaded, trained or saved. *)
Theorem resume_missing_file (a : Args) (trainloader : Z -> list batch)
    (testloader : list batch) (w : World) :
  resume a <> ""%string ->
  files w (resume a) = None ->
  resume_block a w =
    Outcome (Raise AssertionError) w
      [Print "==> Resuming from checkpoint.."; Print (resume a)] /\
  main a trainloader testloader w =
    Outcome (Raise AssertionError) w
      [Print "==> Resuming from checkpoint.."; Print (resume a)].
Proof.
  intros Hne Hf.
  assert (H : resume_block a w =
              Outcome (Raise AssertionError) w
                [Print "==> Resuming from checkpoint.."; Print (resume a)]).
  { unfold resume_block.
    destruct (String.eqb_spec (resume a) "") as [E | _]; [contradiction |].
    run. rewrite Hf. reflexivity. }
  split; [exact H |].
  unfold main. rewrite (bind_raise _ _ w AssertionError) by now rewrite H.
  now rewrite H.
Qed.

Lemma epoch_loop_first_raises (a : Args) (trainloader : Z -> list batch)
    (testloader : list batch) (e : Z) (es : list Z) (w : World) (ex : exn) :
  res (train (trainloader e) e (final (adjust_learning_rate a e w))) =
    Raise ex ->
  let o := epoch_loop a trainloader testloader (e :: es) w in
  res o = Raise ex /\ saves (trace o) = [] /\ logged_lr (trace o) = [] /\
  files (final o) = files w /\ best_acc (final o) = best_acc w.
Proof.
  intros Htr. cbv zeta.
  pose proof (epoch_body_res a trainloader testloader e w) as Hres.
  rewrite Htr in Hres.
  destruct (epoch_loop_cons a trainloader testloader e es w)
    as [(ex' & Hr & ->) | (Hr & _)]; cbv zeta in *; [| congruence].
  cbn [res final trace].
  destruct (epoch_body_cases a trainloader testloader e w)
    as [(ex'' & Br & Bs & Bl & _ & Bf) | (c & Br & _)];
    cbv zeta in *; [| congruence].
  destruct (adjust_total a e w) as (_ & _ & Ab & _ & Af & _).
  cbv zeta in Ab, Af.
  destruct Bf as (F1 & _ & _ & F4 & _).
  split; [congruence |]. split; [exact Bs |]. split; [exact Bl |].
  split; congruence.
Qed.

(** X9. In training mode, when the training loader yields between 1 and 12
    batches in the first epoch to run, [main] ends with
    [ZeroDivisionError] in that epoch: no epoch is logged,
    [save_checkpoint] is never called, the files are as they were and no
    best accuracy is printed. *)
Theorem main_short_loader_never_saves (a : Args)
    (trainloader : Z -> list batch) (testloader : list batch) (w : World)
    (start : Z) :
  evaluate a = false ->
  res (resume_block a w) = Ok start ->
  (start < epochs a)%Z ->
  (1 <= List.length (trainloader start) < 13)%nat ->
  let o := main a trainloader testloader w in
  res o = Raise ZeroDivisionError /\
  saves (trace o) = [] /\
  logged_lr (trace o) = [] /\
  reported_best (trace o) = [] /\
  files (final o) = files w.
Proof.
  intros Hev Hres Hlt Hlen. cbv zeta.
  rewrite (main_after_resume a trainloader testloader w start Hres).
  cbn [res final trace].
  destruct (resume_block_frame a w) as (Rf & Rs & _ & Rb).
  cbv zeta in Rf, Rs, Rb.
  set (w1 := final (resume_block a w)) in *.
  destruct (run_from_training a trainloader testloader start w1 Hev)
    as (S1 & S2 & S3 & S4).
  cbv zeta in S1, S2, S3, S4.
  rewrite range2_cons in S1, S2, S3, S4 by assumption.
  destruct (epoch_loop_first_raises a trainloader testloader start
              (Py.range2 (start + 1) (epochs a)) w1 ZeroDivisionError)
    as (L1 & L2 & L3 & L4 & _).
  { apply short_loader_division_error. exact Hlen. }
  cbv zeta in L1, L2, L3, L4.
  rewrite L1 in S1, S4.
  split; [exact S1 |].
  split; [rewrite saves_app, Rs, S3; exact L2 |].
  split.
  - rewrite logged_lr_app.
    assert (Hlr : logged_lr (trace (resume_block a w)) = []).
    { unfold resume_block. destruct (String.eqb (resume a) ""); [reflexivity |].
      run. destruct (files w (resume a)); reflexivity. }
    rewrite Hlr. cbn [app].
    unfold run_from. rewrite Hev. rewrite range2_cons by assumption.
    rewrite (bind_raise _ _ w1 ZeroDivisionError) by exact L1.
    exact L3.
  - split; [rewrite reported_best_app, Rb, S4; reflexivity |].
    rewrite S2, L4. exact Rf.
Qed.

(** X10. In training mode, when the start epoch is not below [--epochs]
    (a finished run that is resumed, say) [main] trains nothing and saves
    nothing: after the resume block it prints the best accuracy it has and
    returns. *)
Theorem main_nothing_to_train (a : Args) (trainloader : Z -> list batch)
    (testloader : list batch) (w : World) (start : Z) :
  evaluate a = false ->
  res (resume_block a w) = Ok start ->
  (epochs a <= start)%Z ->
  let r := resume_block a w in
  main a trainloader testloader w =
    Outcome (Ok tt) (final r)
      (trace r ++ [Print "Best acc:"; PrintBest (best_acc (final r))]).
Proof.
  intros Hev Hres Hle. cbv zeta.
  rewrite (main_after_resume a trainloader testloader w start Hres).
  unfold run_from. rewrite Hev, range2_empty by assumption.
  reflexivity.
Qed.

End Runs.

(** ** The learning rate, for any schedule *)

Section LearningRate.

Context {B : Backend}.

Lemma adjust_state_lr (a : Args) (e : Z) (w : World) :
  state_lr (final (adjust_learning_rate a e w)) =
    state_lr w * gamma a ^ List.length (scheduled a [e]).
Proof.
  unfold scheduled. cbn [filter].
  destruct (existsb (Z.eqb e) (schedule a)) eqn:E.
  - rewrite adjust_fire by assumption. cbn. lra.
  - rewrite adjust_skip by assumption. cbn. lra.
Qed.

Lemma scheduled_cons (a : Args) (e : Z) (es : list Z) :
  List.length (scheduled a (e :: es)) =
    (List.length (scheduled a [e]) + List.length (scheduled a es))%nat.
Proof.
  unfold scheduled. cbn [filter].
  destruct (existsb (Z.eqb e) (schedule a)); reflexivity.
Qed.

Lemma adjust_groups (a : Args) (e : Z) (w : World) :
  groups_follow w \/ scheduled a [e] <> [] ->
  groups_follow (final (adjust_learning_rate a e w)).
Proof.
  unfold scheduled, groups_follow. cbn [filter].
  destruct (existsb (Z.eqb e) (schedule a)) eqn:E.
  - intros _. rewrite adjust_fire by assumption. cbn.
    apply Forall_forall. intros g Hin. apply in_map_iff in Hin.
    destruct Hin as [g0 [<- _]]. reflexivity.
  - rewrite adjust_skip by assumption. cbn.
    intros [H | H]; [exact H | contradiction].
Qed.

(** X11. For every schedule and every [gamma]: after a completed run of the
    epoch loop over the epochs [es], [state['lr']] is the rate before the
    loop times [gamma] to the number of epochs of [es] that are in the
    schedule (an epoch listed twice in the schedule counts once); and if the
    parameter groups carried that rate before the loop, or some epoch of
    [es] is in the schedule, every parameter group carries it after the
    loop. *)
Theorem learning_rate_after_loop (a : Args) (trainloader : Z -> list batch)
    (testloader : list batch) (es : list Z) (w : World) :
  let o := epoch_loop a trainloader testloader es w in
  res o = Ok tt ->
  state_lr (final o) = state_lr w * gamma a ^ List.length (scheduled a es) /\
  (groups_follow w \/ scheduled a es <> [] -> groups_follow (final o)).
Proof.
  revert w. induction es as [| e es IH]; intros w; cbv zeta.
  - cbn. intros _. split; [lra |]. intros [H | H]; [exact H | contradiction].
  - destruct (epoch_loop_cons a trainloader testloader e es w)
      as [(ex & Hr & ->) | (Hr & ->)]; cbn [res final trace];
      [discriminate |].
    intros Hok.
    destruct (epoch_body_cases a trainloader testloader e w)
      as [(ex' & Br & _) | (c & _ & _ & _ & _ & _ & _ & _ & Bl & _ & Bg)];
      cbv zeta in *; [congruence |].
    destruct (IH _ Hok) as [I1 I2].
    set (ob := epoch_body a trainloader testloader e w) in *.
    split.
    + rewrite I1, Bl, adjust_state_lr, (scheduled_cons a e es), pow_add.
      now rewrite Rmult_assoc.
    + intros Hpre. apply I2.
      assert (Hfollow : groups_follow (final (adjust_learning_rate a e w)) ->
                        groups_follow (final ob)).
      { unfold groups_follow. now rewrite Bg, Bl. }
      destruct (scheduled a [e]) as [| x l] eqn:Es.
      * destruct Hpre as [H | H].
        -- left. apply Hfollow. apply adjust_groups. now left.
        -- right. intros Hnil. apply H. unfold scheduled in *.
           cbn [filter] in *.
           destruct (existsb (Z.eqb e) (schedule a)); [discriminate |].
           exact Hnil.
      * left. apply Hfollow. apply adjust_groups. right.
        rewrite Es. discriminate.
Qed.

(** X12. The resume block loads the optimizer, with the rates of its
    parameter groups, from the checkpoint but leaves [state['lr']] as it
    was; the next decay therefore writes [state['lr'] * gamma], computed
    from the rate of this run's arguments, to every parameter group,
    whatever rates the checkpoint carried. *)
Theorem resume_keeps_state_lr (a : Args) (w : World) (ck : Checkpoint)
    (e : Z) :
  resume a <> ""%string ->
  files w (resume a) = Some ck ->
  existsb (Z.eqb e) (schedule a) = true ->
  let r := resume_block a w in
  let o := adjust_learning_rate a e (final r) in
  state_lr (final r) = state_lr w /\
  param_groups (optimizer (final r)) = param_groups (ck_optimizer ck) /\
  state_lr (final o) = state_lr w * gamma a /\
  map pg_lr (param_groups (optimizer (final o))) =
    map (fun _ => state_lr w * gamma a) (param_groups (ck_optimizer ck)).
Proof.
  intros Hne Hf He. cbv zeta.
  rewrite (resume_block_ok a w ck Hne Hf). cbn [final].
  rewrite adjust_fire by exact He. cbn.
  split; [reflexivity |]. split; [reflexivity |]. split; [reflexivity |].
  rewrite map_map. reflexivity.
Qed.

End LearningRate.

(** ** More on the rescaling *)





(** ** Evaluation only: the edges *)

Section EvaluateEdges.

Context {B : Backend}.

Lemma num_sample_zero_imbalance (C : Z) :
  num_sample C 0 = Raise ZeroDivisionError.
Proof.
  unfold num_sample, Py.true_div.
  destruct (Req_dec_T (IZR 0) 0) as [_ | N]; [reflexivity |].
  exfalso. apply N. reflexivity.
Qed.

(** X15. In evaluation-only mode an imbalance factor of 0 makes [main]
    raise [ZeroDivisionError] at line 237: the result of the first [test] has
    been printed, no second result is printed, and the weights of the model
    are as they were loaded. *)
Theorem evaluate_zero_imbalance (a : Args) (trainloader : Z -> list batch)
    (testloader : list batch) (w : World) (start : Z) :
  evaluate a = true ->
  imbalance a = 0%Z ->
  res (resume_block a w) = Ok start ->
  let r := resume_block a w in
  let o := main a trainloader testloader w in
  res o = Raise ZeroDivisionError /\
  state_dict (model (final o)) = state_dict (model (final r)) /\
  exists loss1 acc1,
    res (test testloader (final r)) = Ok (loss1, acc1) /\
    results (trace o) = [(false, loss1, acc1)].
Proof.
  intros Hev Himb Hres. cbv zeta.
  rewrite (main_after_resume a trainloader testloader w start Hres).
  destruct (resume_block_frame a w) as (_ & _ & Rr & _). cbv zeta in Rr.
  cbn [res final trace]. rewrite results_app, Rr. cbn [app].
  set (w1 := final (resume_block a w)).
  assert (Hb : run_from a trainloader testloader start w1 =
               Outcome (Raise ZeroDivisionError)
                 (with_model (eval_mode (model w1)) w1)
                 [Print evaluation_banner;
                  PrintResult false
                    (meter_avg (losses (meters_over (eval_mode (model w1))
                                          testloader new_meters)))
                    (meter_avg (top1 (meters_over (eval_mode (model w1))
                                        testloader new_meters)))]).
  { unfold run_from. rewrite Hev. unfold evaluate_block. run.
    rewrite test_eq. run. rewrite compute_new_W_eq. run.
    rewrite Himb, num_sample_zero_imbalance. reflexivity. }
  rewrite Hb. cbn [res final trace].
  split; [reflexivity |]. split; [reflexivity |].
  do 2 eexists. split; [rewrite test_eq; reflexivity | reflexivity].
Qed.


End EvaluateEdges.

(** ** Examples of the further properties *)

Lemma example_epoch_completes (e : Z) :
  res (epoch_loop (B := unit_backend) short_run_args (fun _ => []) []
         ([] ++ [e]) example_world) = Ok tt.
Proof.
  cbn [app].
  destruct (epoch_loop_cons (B := unit_backend) short_run_args
              (fun _ => []) [] e [] example_world)
    as [(ex & Hr & _) | (_ & ->)].
  - rewrite epoch_body_res in Hr. discriminate.
  - reflexivity.
Qed.

Lemma save_checkpoint_files_witness :
  files
    (final (save_checkpoint (B := unit_backend) example_checkpoint false
              "checkpoints" example_world_with_best))
    (best_path (B := unit_backend) "checkpoints") =
  files example_world_with_best (best_path (B := unit_backend) "checkpoints").
Proof.
  destruct (save_checkpoint_files (B := unit_backend) example_checkpoint
              false "checkpoints" example_world_with_best)
    as (_ & _ & _ & _ & H & _).
  apply H.
  - reflexivity.
  - cbn. discriminate.
Defined.

Lemma resume_continues_completed_run_witness :
  res (resume_block (B := unit_backend) resume_args
         (final (epoch_loop (B := unit_backend) short_run_args (fun _ => [])
                   [] ([] ++ [0%Z]) example_world))) = Ok (0 + 1)%Z.
Proof.
  apply (resume_continues_completed_run (B := unit_backend)
           short_run_args resume_args (fun _ => []) [] [] 0%Z example_world
           (final (epoch_loop (B := unit_backend) short_run_args
                     (fun _ => []) [] ([] ++ [0%Z]) example_world))
           (example_epoch_completes 0)).
  - reflexivity.
  - discriminate.
  - reflexivity.
Defined.

Lemma resume_missing_file_witness :
  main (B := unit_backend) missing_resume_args (fun _ => []) [] example_world =
    Outcome (Raise AssertionError) example_world
      [Print "==> Resuming from checkpoint..";
       Print (resume missing_resume_args)].
Proof.
  apply (resume_missing_file (B := unit_backend) missing_resume_args
           (fun _ => []) [] example_world).
  - discriminate.
  - reflexivity.
Defined.

Lemma main_short_loader_never_saves_witness :
  res (main (B := unit_backend) short_run_args (fun _ => [unit_batch]) []
         example_world) = Raise ZeroDivisionError /\
  saves (trace (main (B := unit_backend) short_run_args
                  (fun _ => [unit_batch]) [] example_world)) = [].
Proof.
  destruct (main_short_loader_never_saves (B := unit_backend) short_run_args
              (fun _ => [unit_batch]) [] example_world 0%Z)
    as (H1 & H2 & _).
  - reflexivity.
  - reflexivity.
  - cbn. lia.
  - cbn. lia.
  - split; [exact H1 | exact H2].
Defined.

Lemma main_nothing_to_train_witness :
  main (B := unit_backend) finished_args (fun _ => []) []
    (with_best_acc 72.3 example_world) =
  Outcome (Ok tt) (with_best_acc 72.3 example_world)
    [Print "Best acc:"; PrintBest 72.3].
Proof.
  apply (main_nothing_to_train (B := unit_backend) finished_args
           (fun _ => []) [] (with_best_acc 72.3 example_world) 5%Z).
  - reflexivity.
  - reflexivity.
  - cbn. lia.
Defined.

Lemma learning_rate_after_loop_witness :
  state_lr (final (epoch_loop (B := unit_backend) short_run_args
                     (fun _ => []) [] [80%Z] example_world)) =
    state_lr example_world * gamma short_run_args ^ 1 /\
  groups_follow (final (epoch_loop (B := unit_backend) short_run_args
                          (fun _ => []) [] [80%Z] example_world)).
Proof.
  destruct (learning_rate_after_loop (B := unit_backend) short_run_args
              (fun _ => []) [] [80%Z] example_world
              (example_epoch_completes 80)) as [H1 H2].
  split; [exact H1 |]. apply H2. right. discriminate.
Defined.

Lemma resume_keeps_state_lr_witness :
  state_lr
    (final (resume_block (B := unit_backend) resume_args
              (final (checkpointing (B := unit_backend) 100 72.3
                        example_world)))) =
  state_lr (final (checkpointing (B := unit_backend) 100 72.3 example_world)).
Proof.
  destruct (checkpointing_spec (B := unit_backend) 100 72.3 example_world)
    as (_ & _ & _ & _ & _ & _ & _ & Cf).
  cbv zeta in Cf.
  assert (Hne : resume resume_args <> ""%string) by discriminate.
  apply (resume_keeps_state_lr (B := unit_backend) resume_args
           (final (checkpointing (B := unit_backend) 100 72.3 example_world))
           _ 150%Z Hne Cf eq_refl).
Defined.

Lemma evaluate_zero_imbalance_witness :
  res (main (B := unit_backend) zero_imbalance_args (fun _ => [])
         [unit_batch] example_world) = Raise ZeroDivisionError.
Proof.
  apply (evaluate_zero_imbalance (B := unit_backend) zero_imbalance_args
           (fun _ => []) [unit_batch] example_world 0%Z);
    reflexivity.
Defined.


(** With an empty training loader every epoch of the example returns. *)
Lemma example_loop_completes (a : Args) (es : list Z) :
  forall w : @World unit_backend,
    res (epoch_loop (B := unit_backend) a (fun _ => []) [] es w) = Ok tt.
Proof.
  induction es as [| e es IH]; intros w; [reflexivity |].
  destruct (epoch_loop_cons (B := unit_backend) a (fun _ => []) [] e es w)
    as [(ex & Hr & _) | (_ & ->)].
  - rewrite epoch_body_res in Hr. discriminate.
  - cbv zeta. cbn [res]. apply IH.
Qed.

Lemma resume_from_checkpoint_witness :
  let w := final (checkpointing (B := unit_backend) 100 72.3 example_world) in
  let o := main (B := unit_backend) resume_args (fun _ => []) [] w in
  res (resume_block (B := unit_backend) resume_args w) = Ok 101%Z /\
  best_acc (final (resume_block (B := unit_backend) resume_args w)) = 72.3 /\
  res o = Ok tt /\
  map fst (logged_lr (trace o)) = Py.range2 101 180 /\
  map (fun s => ck_epoch (fst s)) (saves (trace o)) =
    map (Z.add 1) (Py.range2 101 180) /\
  (exists rest,
     trace o =
       trace (resume_block (B := unit_backend) resume_args w) ++
       trace (epoch_body (B := unit_backend) resume_args (fun _ => []) [] 101
                (final (resume_block (B := unit_backend) resume_args w))) ++
       rest) /\
  (forall c b, In (c, b) (saves (trace o)) ->
     (100 + 1 <= ck_epoch c - 1 < 180)%Z /\
     72.3 <= ck_best_acc c /\
     (ck_acc c <= 72.3 -> b = false)) /\
  (forall x, In x (reported_best (trace o)) -> 72.3 <= x).
Proof.
  cbv zeta.
  destruct (checkpointing_spec (B := unit_backend) 100 72.3 example_world)
    as (_ & Ct & _ & _ & _ & _ & _ & Cf).
  cbv zeta in Ct, Cf.
  assert (Hmax : Py.max2 72.3 (best_acc example_world) = 72.3).
  { unfold Py.max2. cbn [best_acc example_world initial_world].
    destruct (Rlt_dec 72.3 0); [lra | reflexivity]. }
  assert (Hne : resume resume_args <> ""%string) by discriminate.
  match type of Ct with
  | _ = [SaveCheckpoint ?c ?f ?d] =>
      assert (Hin : In (SaveCheckpoint c f d)
                       (trace (checkpointing (B := unit_backend)
                                 100 72.3 example_world)))
        by (rewrite Ct; left; reflexivity);
      destruct (resume_from_checkpoint (B := unit_backend)
                  resume_args (fun _ => []) [] 100%Z 72.3 72.3
                  example_world
                  (final (checkpointing (B := unit_backend)
                            100 72.3 example_world))
                  c f d Hin Hmax Hne Cf)
        as (H1 & H2 & _ & _ & H5 & H6)
  end.
  destruct (H6 eq_refl) as ((k & _ & Hl & Hs & Hr) & Hfirst & H7 & H8).
  assert (Hok : res (main (B := unit_backend) resume_args (fun _ => []) []
                       (final (checkpointing (B := unit_backend)
                                 100 72.3 example_world))) = Ok tt).
  { rewrite H5. cbn [res].
    destruct (run_from_training (B := unit_backend) resume_args
                (fun _ => []) [] (100 + 1)
                (final (resume_block (B := unit_backend) resume_args
                          (final (checkpointing (B := unit_backend)
                                    100 72.3 example_world))))
                eq_refl) as (-> & _).
    apply example_loop_completes. }
  rewrite (proj1 Hr Hok), firstn_all in Hl, Hs.
  split; [exact H1 |]. split; [exact H2 |]. split; [exact Hok |].
  split; [exact Hl |]. split; [exact Hs |].
  split; [apply Hfirst; cbn; lia |].
  split; [exact H7 | exact H8].
Defined.
